(** * Stellar wind particle synthesis: a shallow embedding of [stellar_wind.py]

    The development follows the source file class by class, in two readings
    of its numbers.  Physical quantities are numbers in one fixed unit
    system.

    The numbers of the program are doubles.  Where a property rests on
    comparisons, control flow and exceptions, or is a property of a formula
    as a function, the numbers are read as the exact values they stand for:

    - [Py]: the Python exceptions the code can raise and the result type;
    - [Wind]: [StarsWithMassLoss] (the per-star mass-loss ledger) and
      [SimpleWind] (emission of SPH particles and the simulation clock), on
      canonical rationals [Qc];
    - [Sampler]: [PositionGenerator] (cube filling, shell cut-out and the
      adaptive oversampling loop), on rationals [Q];
    - [Laws], [Sphere], [Accel]: the [AccelerationFunction] family, the
      wind sphere of [AcceleratingWind] and the terminal velocity of
      Kudritzki, on the real numbers;
    - [Evolving]: [EvolvingStarsWithMassLoss].

    Where the amounts themselves matter - what is booked, how often a loop
    runs, which side of a bound a computed length falls on - the numbers are
    binary64 floats with the rounding of every operation:

    - [F64]: conversions between doubles and integers;
    - [Wind64]: the ledger, the emission and the clock again;
    - [Sampler64]: the sampler again;
    - [Laws64]: the velocity laws and [radius_from_number] again.

    What the code takes from numpy, SciPy and the C library without the
    source fixing its result ([sum], [pow], [exp], [quad], [brentq], the
    random numbers) is a variable of the section that uses it. *)

From Stdlib Require Import ZArith QArith Qcanon Qround Qreals.
From Stdlib Require Import List Lia Lqa Bool String.
From Stdlib Require Import Reals Lra.
From Stdlib Require Floats.
Import ListNotations.

(** ** Python results *)

Module Py.

(** The exceptions that occur in the modelled code.  [ArithmeticError] is
    Python's common base class of [ZeroDivisionError] and [OverflowError]. *)
Inductive exn : Type :=
| TypeError
| NameError (name : string)
| KeyError (key : string)
| ValueError
| AttributeError
| ArithmeticError
| AmuseException (msg : string).

Inductive result (A : Type) : Type :=
| Ok (a : A)
| Raise (e : exn).

Arguments Ok {A} a.
Arguments Raise {A} e.

Definition bind {A B} (r : result A) (k : A -> result B) : result B :=
  match r with
  | Ok a => k a
  | Raise e => Raise e
  end.

(** [int(x)] on a number: truncation toward zero. *)
Definition int (q : Q) : Z := Z.quot (Qnum q) (Zpos (Qden q)).

End Py.

Notation "x <- c ;; k" := (Py.bind c (fun x => k))
  (at level 61, c at next level, right associativity).

(** ** Arithmetic on canonical rationals *)

Local Open Scope Qc_scope.

Definition Qc_gtb (x y : Qc) : bool :=
  match x ?= y with Gt => true | _ => false end.

Definition Qc_leb (x y : Qc) : bool := negb (Qc_gtb x y).

Definition Qc_ltb (x y : Qc) : bool := Qc_gtb y x.

(** ** The mass-loss ledger and the simple wind ([StarsWithMassLoss],
       [SimpleWind]) *)

Module Wind.

Import Py.

(** A star of the collection, with the attributes the ledger reads and
    writes.  The collection is the plain [StarsWithMassLoss] (mass-loss
    rate given on the star, [derive_from_evolution=False]), and the wind
    uses the default [grid_type="random"], for which [wind_sphere] hands
    back the [Ngas] positions it is asked for (module [Sampler] has the
    sampling loop itself). *)
Record star : Type := mk_star {
  key : nat;
  lost_mass : Qc;
  wind_mass_loss_rate : Qc;
  terminal_wind_velocity : Qc;
  wind_release_time : Qc;
  mechanical_energy : Qc;
  previous_mechanical_luminosity : Qc
}.

(** The stars together with the [collection_attributes]. *)
Record StarsWithMassLoss : Type := mk_stars {
  stars : list star;
  timestamp : Qc;
  previous_time : Qc;
  track_mechanical_energy : bool;
  new_unset_lmech_particles : bool
}.

Definition set_lost_mass (v : Qc) (s : star) : star :=
  mk_star (key s) v (wind_mass_loss_rate s) (terminal_wind_velocity s)
          (wind_release_time s) (mechanical_energy s)
          (previous_mechanical_luminosity s).

Definition set_wind_release_time (v : Qc) (s : star) : star :=
  mk_star (key s) (lost_mass s) (wind_mass_loss_rate s)
          (terminal_wind_velocity s) v (mechanical_energy s)
          (previous_mechanical_luminosity s).

Definition set_mechanical_energy (v : Qc) (s : star) : star :=
  mk_star (key s) (lost_mass s) (wind_mass_loss_rate s)
          (terminal_wind_velocity s) (wind_release_time s) v
          (previous_mechanical_luminosity s).

Definition set_previous_mechanical_luminosity (v : Qc) (s : star) : star :=
  mk_star (key s) (lost_mass s) (wind_mass_loss_rate s)
          (terminal_wind_velocity s) (wind_release_time s)
          (mechanical_energy s) v.

Definition half : Qc := Q2Qc (1 # 2).

(** [0.5 * self.wind_mass_loss_rate * self.terminal_wind_velocity**2] *)
Definition new_mechanical_luminosity (s : star) : Qc :=
  half * wind_mass_loss_rate s
  * (terminal_wind_velocity s * terminal_wind_velocity s).

(** The body of the [track_mechanical_energy] branch for one star;
    [seed] is [new_unset_lmech_particles]. *)
Definition track_one (seed : bool) (elapsed_time : Qc) (s : star) : star :=
  let lmech := new_mechanical_luminosity s in
  let prev :=
    if seed && Qc_ltb (previous_mechanical_luminosity s) 0
    then lmech else previous_mechanical_luminosity s in
  let average_mechanical_luminosity := half * (prev + lmech) in
  set_previous_mechanical_luminosity lmech
    (set_mechanical_energy
       (mechanical_energy s + elapsed_time * average_mechanical_luminosity)
       s).

Definition accumulate (elapsed_time : Qc) (s : star) : star :=
  set_lost_mass (lost_mass s + elapsed_time * wind_mass_loss_rate s) s.

(** [StarsWithMassLoss.evolve_mass_loss] *)
Definition evolve_mass_loss (time : Qc) (p : StarsWithMassLoss)
  : StarsWithMassLoss :=
  if Qc_gtb (previous_time p) time then p
  else
    let elapsed_time := time - previous_time p in
    let st := map (accumulate elapsed_time) (stars p) in
    if track_mechanical_energy p then
      mk_stars
        (map (track_one (new_unset_lmech_particles p) elapsed_time) st)
        time time true false
    else
      mk_stars st time time false (new_unset_lmech_particles p).

(** A wind particle as far as the ledger is concerned: its mass and the
    optional tag of the star it came from.  Position, velocity and internal
    energy are filled in by [wind_sphere] and the energy formula and never
    read back by the accounting. *)
Record gas : Type := mk_gas {
  gas_mass : Qc;
  gas_source : option nat
}.

Record SimpleWind : Type := mk_wind {
  sph_particle_mass : Qc;
  model_time : Qc;
  particles : StarsWithMassLoss;
  target_gas : option (list gas);
  timestep : option Qc;
  tag_gas_source : bool
}.

Definition set_model_time (t : Qc) (w : SimpleWind) : SimpleWind :=
  mk_wind (sph_particle_mass w) t (particles w) (target_gas w)
          (timestep w) (tag_gas_source w).

Definition set_particles (p : StarsWithMassLoss) (w : SimpleWind)
  : SimpleWind :=
  mk_wind (sph_particle_mass w) (model_time w) p (target_gas w)
          (timestep w) (tag_gas_source w).

Definition set_target (g : option (list gas)) (w : SimpleWind)
  : SimpleWind :=
  mk_wind (sph_particle_mass w) (model_time w) (particles w) g
          (timestep w) (tag_gas_source w).

(** [SimpleWind.set_target_gas] *)
Definition set_target_gas (g : list gas) (dt : Qc) (w : SimpleWind)
  : SimpleWind :=
  mk_wind (sph_particle_mass w) (model_time w) (particles w) (Some g)
          (Some dt) (tag_gas_source w).

Definition has_target (w : SimpleWind) : bool :=
  match target_gas w with Some _ => true | None => false end.

(** [SimpleWind.evolve_particles] *)
Definition evolve_particles (w : SimpleWind) : SimpleWind :=
  set_particles (evolve_mass_loss (model_time w) (particles w)) w.

(** Number of particles a star releases:
    [int(star.lost_mass/self.sph_particle_mass)]. *)
Definition Ngas (m : Qc) (s : star) : Z := int (this (lost_mass s / m)).

(** [SimpleWind.create_wind_particles_for_one_star]: the new particles and
    the star with its ledger debited. *)
Definition create_wind_particles_for_one_star (w : SimpleWind) (s : star)
  : list gas * star :=
  let n := Ngas (sph_particle_mass w) s in
  let s' :=
    set_lost_mass
      (lost_mass s - Q2Qc (inject_Z n) * sph_particle_mass w) s in
  let source := if tag_gas_source w then Some (key s) else None in
  (repeat (mk_gas (sph_particle_mass w) source) (Z.to_nat n), s').

(** One round of the loop of [create_wind_particles]. *)
Definition emit_star (w : SimpleWind) (s : star) : list gas * star :=
  if Qc_gtb (lost_mass s) (sph_particle_mass w) then
    let '(new_particles, s') := create_wind_particles_for_one_star w s in
    (new_particles, set_wind_release_time (model_time w) s')
  else ([], s).

Fixpoint emit_stars (w : SimpleWind) (l : list star)
  : list gas * list star :=
  match l with
  | [] => ([], [])
  | s :: rest =>
      let '(g, s') := emit_star w s in
      let '(gs, rest') := emit_stars w rest in
      (g ++ gs, s' :: rest')
  end.

(** [SimpleWind.create_wind_particles] *)
Definition create_wind_particles (w : SimpleWind) : list gas * SimpleWind :=
  let p := particles w in
  let '(wind, st) := emit_stars w (stars p) in
  (wind,
   set_particles
     (mk_stars st (timestamp p) (previous_time p)
               (track_mechanical_energy p) (new_unset_lmech_particles p))
     w).

(** [max()] of an array; numpy refuses an empty one. *)
Fixpoint maximum (l : list Qc) : result Qc :=
  match l with
  | [] => Raise ValueError
  | [x] => Ok x
  | x :: rest =>
      m <- maximum rest ;; Ok (if Qc_gtb x m then x else m)
  end.

(** [SimpleWind.has_new_wind_particles] *)
Definition has_new_wind_particles (w : SimpleWind) : result bool :=
  m <- maximum (map lost_mass (stars (particles w))) ;;
  Ok (Qc_gtb m (sph_particle_mass w)).

(** [self.target_gas.add_particles(wind_gas)] *)
Definition add_to_target (wind : list gas) (w : SimpleWind) : SimpleWind :=
  match target_gas w with
  | Some g => set_target (Some (g ++ wind)) w
  | None => w
  end.

(** The body of the [while] loop of [evolve_model].  A state reached when
    an exception is raised is not tracked. *)
Definition evolve_model_step (w : SimpleWind) : result SimpleWind :=
  let w1 := evolve_particles w in
  b <- has_new_wind_particles w1 ;;
  let w2 :=
    if b : bool then
      let '(wind_gas, w') := create_wind_particles w1 in
      add_to_target wind_gas w'
    else w1 in
  match timestep w2 with
  | Some dt => Ok (set_model_time (model_time w2 + dt) w2)
  | None => Raise TypeError
  end.

(** [while self.model_time <= time: ...]; [None] when the fuel runs out
    before the loop condition fails. *)
Fixpoint evolve_model_loop (fuel : nat) (time : Qc) (w : SimpleWind)
  : option (result SimpleWind) :=
  match fuel with
  | O => None
  | S fuel' =>
      if Qc_leb (model_time w) time then
        match evolve_model_step w with
        | Ok w' => evolve_model_loop fuel' time w'
        | Raise e => Some (Raise e)
        end
      else Some (Ok w)
  end.

(** [SimpleWind.evolve_model] *)
Definition evolve_model (fuel : nat) (time : Qc) (w : SimpleWind)
  : option (result SimpleWind) :=
  if has_target w then evolve_model_loop fuel time w
  else Some (Ok (evolve_particles (set_model_time time w))).

(** The loop of [evolve_model] as a relation that counts its rounds:
    [loop_runs time n w w'] when the loop started in [w] leaves after
    exactly [n] rounds in [w']. *)
Inductive loop_runs (time : Qc) : nat -> SimpleWind -> SimpleWind -> Prop :=
| loop_exit w :
    time < model_time w -> loop_runs time 0 w w
| loop_round n w w1 w' :
    model_time w <= time ->
    evolve_model_step w = Ok w1 ->
    loop_runs time n w1 w' ->
    loop_runs time (S n) w w'.

Definition total_mass_loss (w : SimpleWind) : Qc :=
  fold_right Qcplus 0 (map wind_mass_loss_rate (stars (particles w))).

End Wind.

(** ** Sampling positions in a hollow sphere ([PositionGenerator]) *)

Module Sampler.

Import Py.
Local Open Scope Q_scope.

(** A row of the [(N, 3)] array of positions. *)
Definition point : Type := Q * Q * Q.

(** [numpy.pi], the double nearest to the circle constant. *)
Definition pi : Q := 884279719003555 # 281474976710656.

(** The random number generator is the sequence of the numbers it will
    draw; the state that is threaded through the code is the count of numbers
    drawn so far. *)
Definition stream : Type := nat -> Q.

(** Row [i] of [numpy.reshape(numbers, (N, 3))], the numbers being drawn
    from position [pos] on. *)
Definition row (rng : stream) (pos i : nat) : point :=
  (rng (pos + 3 * i)%nat, rng (pos + 3 * i + 1)%nat,
   rng (pos + 3 * i + 2)%nat).

(** A cube generator is called with the positional arguments of the call
    site (after [self]) and returns the cube and the new generator state. *)
Definition generator : Type :=
  stream -> nat -> list Z -> result (list point * nat).

(** [PositionGenerator.random_cube]; numpy refuses a negative size. *)
Definition random_cube : generator :=
  fun rng pos args =>
    match args with
    | [N] =>
        if (N <? 0)%Z then Raise ValueError
        else Ok (map (row rng pos) (seq 0 (Z.to_nat N)),
                 (pos + 3 * Z.to_nat N)%nat)
    | _ => Raise TypeError
    end.

(** [PositionGenerator.regular_grid_unit_cube] takes no argument besides
    [self]; its first statement reads the name [targetN], which is bound
    nowhere. *)
Definition regular_grid_unit_cube : generator :=
  fun rng pos args =>
    match args with
    | [] => Raise (NameError "targetN")
    | _ => Raise TypeError
    end.

(** [PositionGenerator.body_centered_grid_unit_cube], likewise. *)
Definition body_centered_grid_unit_cube : generator :=
  fun rng pos args =>
    match args with
    | [] => Raise (NameError "targetN")
    | _ => Raise TypeError
    end.

Record PositionGenerator : Type := mk_generator {
  cube_generator : generator
}.

(** [PositionGenerator.__init__]: the lookup of [grid_type] in the
    dictionary of cube generators. *)
Definition init (grid_type : string) : result PositionGenerator :=
  if String.eqb grid_type "random" then Ok (mk_generator random_cube)
  else if String.eqb grid_type "regular"
       then Ok (mk_generator regular_grid_unit_cube)
  else if String.eqb grid_type "body_centered"
       then Ok (mk_generator body_centered_grid_unit_cube)
  else Raise (KeyError grid_type).

(** [(positions**2).sum(1)]: the squared length of a row. *)
Definition norm2 (p : point) : Q :=
  let '(x, y, z) := p in x * x + y * y + z * z.

(** The mask [(r >= rmin) & (r < 1)] for [r = sqrt(norm2 p)].  The square
    root of a rational is compared through the squares: [r >= rmin] when
    [rmin] is not positive or [rmin * rmin <= norm2 p], and [r < 1] when
    [norm2 p < 1] ([in_shell_norm] below relates this to the real square
    root). *)
Definition in_shell (rmin : Q) (p : point) : bool :=
  (Qle_bool rmin 0 || Qle_bool (rmin * rmin) (norm2 p))
  && negb (Qle_bool 1 (norm2 p)).

(** [PositionGenerator.cutout_sphere] *)
Definition cutout_sphere (positions : list point) (rmin : Q) : list point :=
  filter (in_shell rmin) positions.

(** [4/3. * numpy.pi * 0.5**3 * (1 - rmin**3)] *)
Definition cube_sphere_ratio (rmin : Q) : Q :=
  (4 # 3) * pi * ((1 # 2) * (1 # 2) * (1 # 2)) * (1 - rmin * rmin * rmin).

(** The [while True] loop of [uniform_hollow_sphere]; [None] when the fuel
    runs out before the loop is left. *)
Fixpoint hollow_loop (fuel : nat) (g : PositionGenerator) (rng : stream)
         (N : nat) (rmin estimatedN : Q) (pos : nat)
  : option (result (list point * nat)) :=
  match fuel with
  | O => None
  | S fuel' =>
      let estimatedN := estimatedN * (11 # 10) + 1 in
      match cube_generator g rng pos [int estimatedN] with
      | Raise e => Some (Raise e)
      | Ok (cube, pos') =>
          let hollow_sphere := cutout_sphere cube rmin in
          if (N <=? List.length hollow_sphere)%nat
          then Some (Ok (firstn N hollow_sphere, pos'))
          else hollow_loop fuel' g rng N rmin estimatedN pos'
      end
  end.

(** [PositionGenerator.uniform_hollow_sphere].  The division by a zero
    [cube_sphere_ratio] ends in an arithmetic error (at the division for
    Python floats, at [int] of an infinity for numpy floats). *)
Definition uniform_hollow_sphere (fuel : nat) (g : PositionGenerator)
           (rng : stream) (N : nat) (rmin : Q) (pos : nat)
  : option (result (list point * nat)) :=
  let cube_sphere_ratio := cube_sphere_ratio rmin in
  if Qeq_bool cube_sphere_ratio 0 then Some (Raise ArithmeticError)
  else
    let estimatedN := inject_Z (Z.of_nat N) / cube_sphere_ratio in
    hollow_loop fuel g rng N rmin estimatedN pos.

End Sampler.

(** ** The acceleration laws ([AccelerationFunction] and its subclasses) *)

Module Laws.

Import Py.
Local Open Scope R_scope.

(** The attributes of a star the laws read; [acc_cutoff] and [acc_start]
    are the calculated attributes [AcceleratingWind] adds. *)
Record star : Type := mk_star {
  radius : R;
  acc_cutoff : R;
  acc_start : R;
  initial_wind_velocity : R;
  terminal_wind_velocity : R
}.

Definition Rgtb (x y : R) : bool := if Rlt_dec y x then true else false.

Definition Rltb (x y : R) : bool := if Rlt_dec x y then true else false.

(** [AccelerationFunction.fix_cutoffs] on one radius (on an array the
    assignment is made element by element). *)
Definition fix_cutoffs (test : bool) (value default : R) : R :=
  if test then default else value.

(** [AccelerationFunction.fix_v_cutoff] *)
Definition fix_v_cutoff (r v : R) (s : star) : R :=
  fix_cutoffs (Rgtb r (acc_cutoff s)) v (terminal_wind_velocity s).

(** [DelayedRSquaredAcceleration.fix_v_start_cutoff] *)
Definition fix_v_start_cutoff (r v : R) (s : star) : R :=
  fix_cutoffs (Rltb r (acc_start s)) v (initial_wind_velocity s).

(** The subclasses of [AccelerationFunction], with the arguments of their
    constructors: the exponent [alpha] of the velocity law (default 4) and
    the [steepness] and optional [r_mid] of the logistic law. *)
Inductive law : Type :=
| ConstantVelocityAcceleration
| RSquaredAcceleration
| DelayedRSquaredAcceleration
| NowotnyAcceleration
| VelocityLawAcceleration (alpha : nat)
| LogisticVelocityAcceleration (steepness : R) (r_mid : option R).

(** [RSquaredAcceleration.scaling] *)
Definition rsquared_scaling (s : star) : R :=
  0.5 * ((terminal_wind_velocity s ^ 2 - initial_wind_velocity s ^ 2)
         / (1 / radius s - 1 / acc_cutoff s)).

(** [DelayedRSquaredAcceleration.scaling] *)
Definition delayed_scaling (s : star) : R :=
  0.5 * ((terminal_wind_velocity s ^ 2 - initial_wind_velocity s ^ 2)
         / (1 / acc_start s - 1 / acc_cutoff s)).

(** [LogisticVelocityAcceleration.short]: the midpoint and the
    exponential. *)
Definition logistic_mid (r_mid : option R) (s : star) : R :=
  match r_mid with
  | None => (acc_cutoff s + radius s) / 2
  | Some m => m * radius s
  end.

Definition logistic_exp (steepness : R) (r_mid : option R) (r : R) (s : star)
  : R :=
  exp (- steepness * (r - logistic_mid r_mid s) / logistic_mid r_mid s).

(** [velocity_from_radius] of each subclass; [None] is the [None] the stub
    of [NowotnyAcceleration] returns. *)
Definition velocity_from_radius (l : law) (r : R) (s : star) : option R :=
  match l with
  | ConstantVelocityAcceleration =>
      let velocity := terminal_wind_velocity s in
      Some (1 * velocity)
  | RSquaredAcceleration =>
      let v := sqrt (2 * rsquared_scaling s * (1 / radius s - 1 / r)
                     + initial_wind_velocity s ^ 2) in
      Some (fix_v_cutoff r v s)
  | DelayedRSquaredAcceleration =>
      let v := sqrt (2 * delayed_scaling s * (1 / acc_start s - 1 / r)
                     + initial_wind_velocity s ^ 2) in
      let v := fix_v_start_cutoff r v s in
      Some (fix_v_cutoff r v s)
  | NowotnyAcceleration => None
  | VelocityLawAcceleration alpha =>
      let v_start := initial_wind_velocity s in
      let v_end := terminal_wind_velocity s in
      Some (v_start + (v_end - v_start) * (1 - radius s / r) ^ alpha)
  | LogisticVelocityAcceleration steepness r_mid =>
      let v_init := initial_wind_velocity s in
      let v_end := terminal_wind_velocity s in
      let exp := logistic_exp steepness r_mid r s in
      let v := v_init + (v_end - v_init) / (1 + exp) in
      Some (fix_v_cutoff r v s)
  end.

(** The numerical backend [AccelerationFunction.__init__] imports from
    SciPy: [quad f a b] is the value ([result[0]]) of the quadrature of [f]
    from [a] to [b], [brentq f a b] the root found in the bracket. *)
Record backend : Type := mk_backend {
  quad : (R -> R) -> R -> R -> R;
  brentq : (R -> R) -> R -> R -> R
}.

(** The velocity read by the integrand, for a law that returns one. *)
Definition speed (l : law) (r : R) (s : star) : R :=
  match velocity_from_radius l r s with
  | Some v => v
  | None => 0
  end.

(** The local functions of [AccelerationFunction.radius_from_number]. *)
Definition inverse_velocity (l : law) (s : star) (r1 : R) : R :=
  1 / speed l r1 s.

Definition cumulative_inverse_velocity (b : backend) (l : law) (s : star)
           (q : R) : R :=
  quad b (inverse_velocity l s) (radius s) q.

Definition residual (b : backend) (l : law) (s : star) (rmax x r2 : R) : R :=
  cumulative_inverse_velocity b l s r2
  / cumulative_inverse_velocity b l s rmax - x.

Definition one_radius (b : backend) (l : law) (s : star) (rmax x : R) : R :=
  brentq b (residual b l s rmax x) (radius s) rmax.

Definition scipy_failed : string := "Importing SciPy has failed".

(** [radius_from_number] for one quantile [x].  [scipy] is the backend, if
    the import succeeded.  The constant-velocity law overrides the method by
    a closed form.  The other laws inherit the one built on [quad] and
    [brentq]: the velocity law never runs the base constructor and so has
    neither attribute; the stub of Nowotny hands [None] to the integrand. *)
Definition radius_from_number (scipy : option backend) (l : law)
           (x r_max : R) (s : star) : result R :=
  match l with
  | ConstantVelocityAcceleration =>
      let r_star := radius s in
      Ok (x * (r_max - r_star) + r_star)
  | VelocityLawAcceleration _ => Raise AttributeError
  | _ =>
      match scipy with
      | None => Raise (AmuseException scipy_failed)
      | Some b =>
          match l with
          | NowotnyAcceleration => Raise AttributeError
          | _ => Ok (one_radius b l s r_max x)
          end
      end
  end.

End Laws.

(** ** Mass loss derived from stellar evolution
       ([EvolvingStarsWithMassLoss]) *)

Module Evolving.

Import Py Wind.











End Evolving.

(** ** Positions and velocities of a wind sphere
       ([generate_positions], [wind_sphere]) *)

Module Sphere.

Import Py Laws.
Local Open Scope R_scope.

Definition vec : Type := R * R * R.

(** [numpy.sqrt((positions**2).sum(1))] and [.lengths()] for one row. *)
Definition lengths (p : vec) : R :=
  let '(x, y, z) := p in sqrt (x ^ 2 + y ^ 2 + z ^ 2).










End Sphere.

(** ** Accelerations and the terminal velocity
       ([acceleration_from_radius], [kudritzki_wind_velocity]) *)

Module Accel.

Import Py Laws.
Local Open Scope R_scope.

(** [AccelerationFunction.fix_acc_cutoff] *)
Definition fix_acc_cutoff (r acc : R) (s : star) : R :=
  fix_cutoffs (Rgtb r (acc_cutoff s)) acc 0.

(** [DelayedRSquaredAcceleration.fix_acc_start_cutoff] *)
Definition fix_acc_start_cutoff (r acc : R) (s : star) : R :=
  fix_cutoffs (Rltb r (acc_start s)) acc 0.

(** [acceleration_from_radius] of each subclass.  The stub of
    [NowotnyAcceleration] returns [None]; the velocity law calls
    [self.velocity_from_radius(self, r, star)], one argument too many for
    the bound method. *)
Definition acceleration_from_radius (l : law) (r : R) (s : star)
  : result (option R) :=
  match l with
  | ConstantVelocityAcceleration => Ok (Some 0)
  | RSquaredAcceleration =>
      let acc := rsquared_scaling s / r ^ 2 in
      Ok (Some (fix_acc_cutoff r acc s))
  | DelayedRSquaredAcceleration =>
      let acc := delayed_scaling s / r ^ 2 in
      let acc := fix_acc_start_cutoff r acc s in
      Ok (Some (fix_acc_cutoff r acc s))
  | NowotnyAcceleration => Ok None
  | VelocityLawAcceleration _ => Raise TypeError
  | LogisticVelocityAcceleration steepness r_mid =>
      let v_init := initial_wind_velocity s in
      let v_end := terminal_wind_velocity s in
      let r_mid' := logistic_mid r_mid s in
      let exp := logistic_exp steepness r_mid r s in
      let dvdr := steepness * (v_end - v_init) * exp
                  / (r_mid' * (1 + exp) ^ 2) in
      let v := v_init + (v_end - v_init) / (1 + exp) in
      let acc := v * dvdr in
      Ok (Some (fix_acc_cutoff r acc s))
  end.

(** [numpy.select(condlist, choicelist)]: the choice of the first
    condition that holds, and the default [0] when none does. *)
Fixpoint select (condlist : list bool) (choicelist : list R) : R :=
  match condlist, choicelist with
  | c :: condlist', x :: choicelist' =>
      if c then x else select condlist' choicelist'
  | _, _ => 0
  end.

Definition Rgeb (x y : R) : bool := if Rle_dec y x then true else false.

Definition Rleb (x y : R) : bool := if Rle_dec x y then true else false.

(** [kudritzki_wind_velocity], with [mass], [radius], [luminosity] and
    [temperature] the numbers in solar units and K, and [G] the
    gravitational constant in the same units. *)
Definition kudritzki_wind_velocity
           (G mass radius luminosity temperature Y I_He : R) : R :=
  let sigma_e := 0.398 * (1 + I_He * Y) / (1 + 4 * Y) in
  let Gamma := 7.66e-5 * sigma_e * (luminosity / mass) in
  let v_esc := sqrt (2 * G * mass / radius * (1 - Gamma)) in
  let condlist :=
    [Rgeb temperature 21000;
     Rltb 10000 temperature && Rltb temperature 21000;
     Rleb temperature 10000] in
  let choicelist := [2.65; 1.4; 1.0] in
  v_esc * select condlist choicelist.

End Accel.

(** ** Binary64 arithmetic *)

(** The numbers of the program are IEEE 754 doubles (Python floats and
    numpy's float64).  Module [Wind] above reads them as exact rationals,
    which is the program as far as comparisons and control flow go; the
    amounts it books are rounded, and module [Wind64] below repeats the
    ledger and the clock on doubles, with the primitive floats of Rocq:
    addition, subtraction, product, quotient and square root are the
    correctly rounded operations of the processor, [x > y] is
    [ltb y x] and [x <= y] is [leb x y] (both false on a NaN). *)

Module F64.

Import Py Floats.
Local Open Scope float_scope.

(** The double nearest to an integer, ties to even; infinite beyond the
    range of doubles. *)
Definition of_Z (z : Z) : float :=
  SF2Prim (binary_normalize prec emax z 0 false).

(** The conversion of a Python [int] that takes part in float arithmetic;
    an integer beyond the range of doubles is an [OverflowError]. *)
Definition of_int (z : Z) : result float :=
  let x := of_Z z in
  if is_infinity x then Raise ArithmeticError else Ok x.

(** [int(x)]: truncation toward zero; an [OverflowError] on an infinity and
    a [ValueError] on a NaN. *)
Definition int (x : float) : result Z :=
  match Prim2SF x with
  | S754_zero _ => Ok 0%Z
  | S754_infinity _ => Raise ArithmeticError
  | S754_nan => Raise ValueError
  | S754_finite s m e =>
      let magnitude :=
        match e with
        | Zneg p => Z.shiftr (Zpos m) (Zpos p)
        | _ => Z.shiftl (Zpos m) e
        end in
      Ok (if s then (- magnitude)%Z else magnitude)
  end.

(** The rational a finite double stands for (0 for an infinity or a
    NaN). *)
Definition exact (x : float) : Q :=
  match Prim2SF x with
  | S754_finite s m e =>
      let magnitude :=
        match e with
        | Zneg p => Zpos m # 2 ^ p
        | _ => inject_Z (Z.shiftl (Zpos m) e)
        end in
      if s then (- magnitude)%Q else magnitude
  | _ => 0%Q
  end.



(** [max] of two entries as [numpy.max] folds them: a NaN wins. *)
Definition fmax (x y : float) : float :=
  if is_nan x then x
  else if is_nan y then y
  else if ltb x y then y else x.

End F64.

(** ** The ledger and the simple wind on doubles ([StarsWithMassLoss],
       [SimpleWind]) *)

Module Wind64.

Import Py Floats.
Local Open Scope float_scope.

Record star : Type := mk_star {
  key : nat;
  lost_mass : float;
  wind_mass_loss_rate : float;
  terminal_wind_velocity : float;
  wind_release_time : float;
  mechanical_energy : float;
  previous_mechanical_luminosity : float
}.

(** The stars together with the [collection_attributes].  An empty
    collection is one that never held a star: it defines none of the
    attributes, and reading one is an [AttributeError]. *)
Record StarsWithMassLoss : Type := mk_stars {
  stars : list star;
  timestamp : float;
  previous_time : float;
  track_mechanical_energy : bool;
  new_unset_lmech_particles : bool
}.

Definition set_lost_mass (v : float) (s : star) : star :=
  mk_star (key s) v (wind_mass_loss_rate s) (terminal_wind_velocity s)
          (wind_release_time s) (mechanical_energy s)
          (previous_mechanical_luminosity s).

Definition set_wind_release_time (v : float) (s : star) : star :=
  mk_star (key s) (lost_mass s) (wind_mass_loss_rate s)
          (terminal_wind_velocity s) v (mechanical_energy s)
          (previous_mechanical_luminosity s).

Definition set_mechanical_energy (v : float) (s : star) : star :=
  mk_star (key s) (lost_mass s) (wind_mass_loss_rate s)
          (terminal_wind_velocity s) (wind_release_time s) v
          (previous_mechanical_luminosity s).

Definition set_previous_mechanical_luminosity (v : float) (s : star)
  : star :=
  mk_star (key s) (lost_mass s) (wind_mass_loss_rate s)
          (terminal_wind_velocity s) (wind_release_time s)
          (mechanical_energy s) v.

(** An attribute of the collection as an array. *)
Definition attribute (f : star -> float) (p : StarsWithMassLoss)
  : result (list float) :=
  match stars p with
  | [] => Raise AttributeError
  | l => Ok (map f l)
  end.

(** [0.5 * self.wind_mass_loss_rate * self.terminal_wind_velocity**2] *)
Definition new_mechanical_luminosity (s : star) : float :=
  0.5 * wind_mass_loss_rate s
  * (terminal_wind_velocity s * terminal_wind_velocity s).

(** The body of the [track_mechanical_energy] branch for one star;
    [seed] is [new_unset_lmech_particles]. *)
Definition track_one (seed : bool) (elapsed_time : float) (s : star)
  : star :=
  let lmech := new_mechanical_luminosity s in
  let prev :=
    if seed && ltb (previous_mechanical_luminosity s) 0
    then lmech else previous_mechanical_luminosity s in
  let average_mechanical_luminosity := 0.5 * (prev + lmech) in
  set_previous_mechanical_luminosity lmech
    (set_mechanical_energy
       (mechanical_energy s + elapsed_time * average_mechanical_luminosity)
       s).

(** [self.lost_mass += elapsed_time * self.wind_mass_loss_rate] for one
    star: one rounded product and one rounded sum. *)
Definition accumulate (elapsed_time : float) (s : star) : star :=
  set_lost_mass (lost_mass s + elapsed_time * wind_mass_loss_rate s) s.

(** [StarsWithMassLoss.evolve_mass_loss] *)
Definition evolve_mass_loss (time : float) (p : StarsWithMassLoss)
  : result StarsWithMassLoss :=
  if ltb time (previous_time p) then Ok p
  else
    let elapsed_time := time - previous_time p in
    match stars p with
    | [] => Raise AttributeError
    | l =>
        let st := map (accumulate elapsed_time) l in
        if track_mechanical_energy p then
          Ok (mk_stars
                (map (track_one (new_unset_lmech_particles p) elapsed_time)
                     st)
                time time true false)
        else
          Ok (mk_stars st time time false (new_unset_lmech_particles p))
    end.



(** A wind particle as far as the ledger is concerned: its mass and the
    optional tag of the star it came from. *)
Record gas : Type := mk_gas {
  gas_mass : float;
  gas_source : option nat
}.

(** The wind, with the state of numpy's global random generator (the count
    of numbers drawn so far) that the sampling of positions advances. *)
Record SimpleWind : Type := mk_wind {
  sph_particle_mass : float;
  model_time : float;
  particles : StarsWithMassLoss;
  target_gas : option (list gas);
  timestep : option float;
  tag_gas_source : bool;
  random_state : nat
}.

Definition set_model_time (t : float) (w : SimpleWind) : SimpleWind :=
  mk_wind (sph_particle_mass w) t (particles w) (target_gas w)
          (timestep w) (tag_gas_source w) (random_state w).

Definition set_particles (p : StarsWithMassLoss) (w : SimpleWind)
  : SimpleWind :=
  mk_wind (sph_particle_mass w) (model_time w) p (target_gas w)
          (timestep w) (tag_gas_source w) (random_state w).

Definition set_target (g : option (list gas)) (w : SimpleWind)
  : SimpleWind :=
  mk_wind (sph_particle_mass w) (model_time w) (particles w) g
          (timestep w) (tag_gas_source w) (random_state w).

Definition set_random_state (n : nat) (w : SimpleWind) : SimpleWind :=
  mk_wind (sph_particle_mass w) (model_time w) (particles w)
          (target_gas w) (timestep w) (tag_gas_source w) n.

Definition has_target (w : SimpleWind) : bool :=
  match target_gas w with Some _ => true | None => false end.

(** [SimpleWind.evolve_particles]: the outcome and the state it leaves. *)
Definition evolve_particles (w : SimpleWind) : result unit * SimpleWind :=
  match evolve_mass_loss (model_time w) (particles w) with
  | Ok p => (Ok tt, set_particles p w)
  | Raise e => (Raise e, w)
  end.

(** [max()] of an array; numpy refuses an empty one. *)
Fixpoint maximum (l : list float) : result float :=
  match l with
  | [] => Raise ValueError
  | [x] => Ok x
  | x :: rest => m <- maximum rest ;; Ok (F64.fmax x m)
  end.

(** [SimpleWind.has_new_wind_particles] *)
Definition has_new_wind_particles (w : SimpleWind) : result bool :=
  lost <- attribute lost_mass (particles w) ;;
  m <- maximum lost ;;
  Ok (ltb (sph_particle_mass w) m).


(** [self.target_gas.add_particles(wind_gas)] *)
Definition add_to_target (wind : list gas) (w : SimpleWind) : SimpleWind :=
  match target_gas w with
  | Some g => set_target (Some (g ++ wind)) w
  | None => w
  end.


Section Numpy.

(** What [create_wind_particles_for_one_star] does besides the accounting
    - [wind_sphere] with its sampling loop, the internal energy, the
    shifts by the position and velocity of the star - is a function of the
    random state, the model time, the star and the count that returns or
    raises, and leaves a random state.  When it returns, the wind is the
    [Particles(Ngas)] it started from. *)
Variable wind_sphere : nat -> float -> star -> Z -> result unit * nat.

(** [.sum()] of an array; numpy chooses the order of the additions by the
    length of the array. *)
Variable sum : list float -> float.

(** [SimpleWind.create_wind_particles_for_one_star], from the random
    state [rs]: the new particles or the exception, the star as the call
    leaves it, and the random state. *)
Definition create_wind_particles_for_one_star
           (w : SimpleWind) (rs : nat) (s : star)
  : result (list gas) * star * nat :=
  match F64.int (lost_mass s / sph_particle_mass w) with
  | Raise e => (Raise e, s, rs)
  | Ok Ngas =>
      match F64.of_int Ngas with
      | Raise e => (Raise e, s, rs)
      | Ok n =>
          let s' :=
            set_lost_mass (lost_mass s - n * sph_particle_mass w) s in
          match wind_sphere rs (model_time w) s' Ngas with
          | (Raise e, rs') => (Raise e, s', rs')
          | (Ok _, rs') =>
              let source :=
                if tag_gas_source w then Some (key s) else None in
              (Ok (repeat (mk_gas (sph_particle_mass w) source)
                          (Z.to_nat Ngas)),
               s', rs')
          end
      end
  end.

(** The loop of [create_wind_particles] over the stars [l]. *)
Fixpoint emit_stars (w : SimpleWind) (rs : nat) (l : list star)
  : result (list gas) * list star * nat :=
  match l with
  | [] => (Ok [], [], rs)
  | s :: rest =>
      if ltb (sph_particle_mass w) (lost_mass s) then
        match create_wind_particles_for_one_star w rs s with
        | (Raise e, s', rs') => (Raise e, s' :: rest, rs')
        | (Ok new_particles, s', rs') =>
            let s' := set_wind_release_time (model_time w) s' in
            match emit_stars w rs' rest with
            | (Raise e, rest', rs'') => (Raise e, s' :: rest', rs'')
            | (Ok wind, rest', rs'') =>
                (Ok (new_particles ++ wind), s' :: rest', rs'')
            end
        end
      else
        match emit_stars w rs rest with
        | (r, rest', rs') => (r, s :: rest', rs')
        end
  end.

(** [SimpleWind.create_wind_particles]: the batch or the exception, and
    the state the call leaves. *)
Definition create_wind_particles (w : SimpleWind)
  : result (list gas) * SimpleWind :=
  let p := particles w in
  match emit_stars w (random_state w) (stars p) with
  | (r, st, rs) =>
      (r,
       set_random_state rs
         (set_particles
            (mk_stars st (timestamp p) (previous_time p)
                      (track_mechanical_energy p)
                      (new_unset_lmech_particles p))
            w))
  end.

(** The body of the [while] loop of [evolve_model]. *)
Definition evolve_model_step (w : SimpleWind) : result unit * SimpleWind :=
  match evolve_particles w with
  | (Raise e, w1) => (Raise e, w1)
  | (Ok _, w1) =>
      match has_new_wind_particles w1 with
      | Raise e => (Raise e, w1)
      | Ok b =>
          match (if b : bool then
                   match create_wind_particles w1 with
                   | (Raise e, w') => (Raise e, w')
                   | (Ok wind_gas, w') => (Ok tt, add_to_target wind_gas w')
                   end
                 else (Ok tt, w1)) with
          | (Raise e, w2) => (Raise e, w2)
          | (Ok _, w2) =>
              match timestep w2 with
              | Some dt => (Ok tt, set_model_time (model_time w2 + dt) w2)
              | None => (Raise TypeError, w2)
              end
          end
      end
  end.

(** [while self.model_time <= time: ...]; [None] when the fuel runs out
    before the loop is left. *)
Fixpoint evolve_model_loop (fuel : nat) (time : float) (w : SimpleWind)
  : option (result unit * SimpleWind) :=
  match fuel with
  | O => None
  | S fuel' =>
      if leb (model_time w) time then
        match evolve_model_step w with
        | (Ok _, w') => evolve_model_loop fuel' time w'
        | (Raise e, w') => Some (Raise e, w')
        end
      else Some (Ok tt, w)
  end.

(** [SimpleWind.evolve_model] *)
Definition evolve_model (fuel : nat) (time : float) (w : SimpleWind)
  : option (result unit * SimpleWind) :=
  if has_target w then evolve_model_loop fuel time w
  else Some (evolve_particles (set_model_time time w)).

(** The loop of [evolve_model] as a relation that counts its rounds:
    [loop_runs time n w w'] when the loop started in [w] is left after
    exactly [n] rounds, none of which raised, in [w']. *)
Inductive loop_runs (time : float) : nat -> SimpleWind -> SimpleWind -> Prop :=
| loop_exit w :
    leb (model_time w) time = false -> loop_runs time 0 w w
| loop_round n w w1 w' :
    leb (model_time w) time = true ->
    evolve_model_step w = (Ok tt, w1) ->
    loop_runs time n w1 w' ->
    loop_runs time (S n) w w'.


End Numpy.

End Wind64.

(** ** The shell sampler on doubles ([PositionGenerator]) *)

Module Sampler64.

Import Py Floats.
Local Open Scope float_scope.
Set Warnings "-inexact-float".

(** A row of the [(N, 3)] array of positions. *)
Definition point : Type := float * float * float.

(** [numpy.pi] *)
Definition pi : float := 0x1.921fb54442d18p+1.

(** The random number generator is the sequence of the numbers it will
    draw; the state that is threaded through the code is the count of
    numbers drawn so far. *)
Definition stream : Type := nat -> float.

(** Row [i] of [numpy.reshape(numbers, (N, 3))], the numbers being drawn
    from position [pos] on. *)
Definition row (rng : stream) (pos i : nat) : point :=
  (rng (pos + 3 * i)%nat, rng (pos + 3 * i + 1)%nat,
   rng (pos + 3 * i + 2)%nat).

(** A cube generator is called with the positional arguments of the call
    site (after [self]) and returns the cube and the new generator state. *)
Definition generator : Type :=
  stream -> nat -> list Z -> result (list point * nat).

(** [PositionGenerator.random_cube]; numpy refuses a negative size. *)
Definition random_cube : generator :=
  fun rng pos args =>
    match args with
    | [N] =>
        if (N <? 0)%Z then Raise ValueError
        else Ok (map (row rng pos) (seq 0 (Z.to_nat N)),
                 (pos + 3 * Z.to_nat N)%nat)
    | _ => Raise TypeError
    end.

(** [PositionGenerator.regular_grid_unit_cube] and
    [body_centered_grid_unit_cube] take no argument besides [self]; their
    first statement reads the name [targetN], which is bound nowhere. *)
Definition regular_grid_unit_cube : generator :=
  fun rng pos args =>
    match args with
    | [] => Raise (NameError "targetN")
    | _ => Raise TypeError
    end.

Definition body_centered_grid_unit_cube : generator :=
  fun rng pos args =>
    match args with
    | [] => Raise (NameError "targetN")
    | _ => Raise TypeError
    end.

Record PositionGenerator : Type := mk_generator {
  cube_generator : generator
}.

(** [PositionGenerator.__init__] *)
Definition init (grid_type : string) : result PositionGenerator :=
  if String.eqb grid_type "random" then Ok (mk_generator random_cube)
  else if String.eqb grid_type "regular"
       then Ok (mk_generator regular_grid_unit_cube)
  else if String.eqb grid_type "body_centered"
       then Ok (mk_generator body_centered_grid_unit_cube)
  else Raise (KeyError grid_type).

(** [numpy.sqrt((positions**2).sum(1))] for one row: the squares are
    rounded products, the sum over the three entries of the row is taken
    from left to right, and the root is rounded. *)
Definition lengths (p : point) : float :=
  let '(x, y, z) := p in sqrt (x * x + y * y + z * z).

(** The mask [(r >= rmin) & (r < 1)]. *)
Definition in_shell (rmin : float) (p : point) : bool :=
  let r := lengths p in leb rmin r && ltb r 1.

(** [PositionGenerator.cutout_sphere] *)
Definition cutout_sphere (positions : list point) (rmin : float)
  : list point :=
  filter (in_shell rmin) positions.

Section Libm.

(** [x ** y], the power function of the C library. *)
Variable pow : float -> float -> float.

(** [4/3. * numpy.pi * 0.5**3 * (1 - rmin**3)] *)
Definition cube_sphere_ratio (rmin : float) : float :=
  4 / 3 * pi * pow 0.5 3 * (1 - pow rmin 3).

(** The [while True] loop of [uniform_hollow_sphere]; [None] when the fuel
    runs out before the loop is left. *)
Fixpoint hollow_loop (fuel : nat) (g : PositionGenerator) (rng : stream)
         (N : nat) (rmin estimatedN : float) (pos : nat)
  : option (result (list point * nat)) :=
  match fuel with
  | O => None
  | S fuel' =>
      let estimatedN := estimatedN * 1.1 + 1 in
      match F64.int estimatedN with
      | Raise e => Some (Raise e)
      | Ok n =>
          match cube_generator g rng pos [n] with
          | Raise e => Some (Raise e)
          | Ok (cube, pos') =>
              let hollow_sphere := cutout_sphere cube rmin in
              if (N <=? List.length hollow_sphere)%nat
              then Some (Ok (firstn N hollow_sphere, pos'))
              else hollow_loop fuel' g rng N rmin estimatedN pos'
          end
      end
  end.

(** [PositionGenerator.uniform_hollow_sphere], for [rmin] a numpy
    float64 as [generate_positions] passes it: the division by a zero
    [cube_sphere_ratio] gives an infinity or a NaN, on which [int]
    raises in the first round. *)
Definition uniform_hollow_sphere (fuel : nat) (g : PositionGenerator)
           (rng : stream) (N : nat) (rmin : float) (pos : nat)
  : option (result (list point * nat)) :=
  let cube_sphere_ratio := cube_sphere_ratio rmin in
  match F64.of_int (Z.of_nat N) with
  | Raise e => Some (Raise e)
  | Ok n =>
      let estimatedN := n / cube_sphere_ratio in
      hollow_loop fuel g rng N rmin estimatedN pos
  end.

End Libm.

End Sampler64.

(** ** The acceleration laws on doubles ([AccelerationFunction] and its
       subclasses) *)

Module Laws64.

Import Py Floats.
Local Open Scope float_scope.
Set Warnings "-inexact-float".

(** The attributes of a star the laws read. *)
Record star : Type := mk_star {
  radius : float;
  acc_cutoff : float;
  acc_start : float;
  initial_wind_velocity : float;
  terminal_wind_velocity : float
}.

(** [AccelerationFunction.fix_cutoffs] on one radius. *)
Definition fix_cutoffs (test : bool) (value default : float) : float :=
  if test then default else value.

(** [AccelerationFunction.fix_v_cutoff]; the test is [r > star.acc_cutoff]. *)
Definition fix_v_cutoff (r v : float) (s : star) : float :=
  fix_cutoffs (ltb (acc_cutoff s) r) v (terminal_wind_velocity s).

(** [DelayedRSquaredAcceleration.fix_v_start_cutoff]; the test is
    [r < star.acc_start]. *)
Definition fix_v_start_cutoff (r v : float) (s : star) : float :=
  fix_cutoffs (ltb r (acc_start s)) v (initial_wind_velocity s).

(** The subclasses of [AccelerationFunction], with the arguments of their
    constructors as doubles: the exponent [alpha] of the velocity law
    (default 4) and the [steepness] (default 10) and optional [r_mid] of
    the logistic law. *)
Inductive law : Type :=
| ConstantVelocityAcceleration
| RSquaredAcceleration
| DelayedRSquaredAcceleration
| NowotnyAcceleration
| VelocityLawAcceleration (alpha : float)
| LogisticVelocityAcceleration (steepness : float) (r_mid : option float).

Section Libm.

(** [x ** y] and [numpy.exp], the functions of the C library. *)
Variable pow : float -> float -> float.
Variable exp : float -> float.

(** [RSquaredAcceleration.scaling] *)
Definition rsquared_scaling (s : star) : float :=
  0.5 * ((pow (terminal_wind_velocity s) 2
          - pow (initial_wind_velocity s) 2)
         / (1 / radius s - 1 / acc_cutoff s)).

(** [DelayedRSquaredAcceleration.scaling] *)
Definition delayed_scaling (s : star) : float :=
  0.5 * ((pow (terminal_wind_velocity s) 2
          - pow (initial_wind_velocity s) 2)
         / (1 / acc_start s - 1 / acc_cutoff s)).

(** [LogisticVelocityAcceleration.short]: the midpoint and the
    exponential. *)
Definition logistic_mid (r_mid : option float) (s : star) : float :=
  match r_mid with
  | None => (acc_cutoff s + radius s) / 2
  | Some m => m * radius s
  end.

Definition logistic_exp (steepness : float) (r_mid : option float)
           (r : float) (s : star) : float :=
  exp (- steepness * (r - logistic_mid r_mid s) / logistic_mid r_mid s).

(** [velocity_from_radius] of each subclass; [None] is the [None] the stub
    of [NowotnyAcceleration] returns. *)
Definition velocity_from_radius (l : law) (r : float) (s : star)
  : option float :=
  match l with
  | ConstantVelocityAcceleration =>
      let velocity := terminal_wind_velocity s in
      Some (1 * velocity)
  | RSquaredAcceleration =>
      let v := sqrt (2 * rsquared_scaling s * (1 / radius s - 1 / r)
                     + pow (initial_wind_velocity s) 2) in
      Some (fix_v_cutoff r v s)
  | DelayedRSquaredAcceleration =>
      let v := sqrt (2 * delayed_scaling s * (1 / acc_start s - 1 / r)
                     + pow (initial_wind_velocity s) 2) in
      let v := fix_v_start_cutoff r v s in
      Some (fix_v_cutoff r v s)
  | NowotnyAcceleration => None
  | VelocityLawAcceleration alpha =>
      let v_start := initial_wind_velocity s in
      let v_end := terminal_wind_velocity s in
      Some (v_start + (v_end - v_start) * pow (1 - radius s / r) alpha)
  | LogisticVelocityAcceleration steepness r_mid =>
      let v_init := initial_wind_velocity s in
      let v_end := terminal_wind_velocity s in
      let exp := logistic_exp steepness r_mid r s in
      let v := v_init + (v_end - v_init) / (1 + exp) in
      Some (fix_v_cutoff r v s)
  end.

(** The numerical backend [AccelerationFunction.__init__] imports from
    SciPy: [quad f a b] is the value ([result[0]]) of the quadrature of [f]
    from [a] to [b], [brentq f a b] the root found in the bracket or the
    exception raised for a bracket without a change of sign. *)
Record backend : Type := mk_backend {
  quad : (float -> float) -> float -> float -> float;
  brentq : (float -> float) -> float -> float -> result float
}.

(** The attributes [AccelerationFunction.__init__] sets: the backend, or
    the method [unsupported] when the import of SciPy failed.  The
    constructor of [VelocityLawAcceleration] does not run it, so that its
    instances have neither attribute; the constructors of the other
    subclasses are inherited or, for the logistic law, call it. *)
Inductive attributes : Type :=
| not_set
| unsupported
| scipy (b : backend).

Definition init (scipy_imports : option backend) (l : law) : attributes :=
  match l with
  | VelocityLawAcceleration _ => not_set
  | _ =>
      match scipy_imports with
      | Some b => scipy b
      | None => unsupported
      end
  end.

Definition scipy_failed : string := "Importing SciPy has failed".

(** [radius_from_number] for one quantile [x], on an instance built with
    or without SciPy.  The constant-velocity law overrides the method by a
    closed form.  The other laws inherit the one that first calls
    [self.quad] for [d_max] and then [self.brentq] on the residual; the
    integrand is the inverse of the velocity, which the stub of Nowotny
    does not return. *)
Definition radius_from_number (scipy_imports : option backend) (l : law)
           (x r_max : float) (s : star) : result float :=
  match l with
  | ConstantVelocityAcceleration =>
      let r_star := radius s in
      Ok (x * (r_max - r_star) + r_star)
  | _ =>
      let self := init scipy_imports l in
      let rmin := radius s in
      let rmax := r_max in
      match self with
      | not_set => Raise AttributeError
      | unsupported => Raise (AmuseException scipy_failed)
      | scipy b =>
          match l with
          | NowotnyAcceleration => Raise AttributeError
          | _ =>
              let inverse_velocity r1 :=
                match velocity_from_radius l r1 s with
                | Some velocity => 1 / velocity
                | None => nan
                end in
              let cumulative_inverse_velocity q :=
                quad b inverse_velocity rmin q in
              let d_max := cumulative_inverse_velocity rmax in
              let residual r2 :=
                cumulative_inverse_velocity r2 / d_max - x in
              brentq b residual rmin rmax
          end
      end
  end.

End Libm.

End Laws64.
(** * Properties *)

(** ** Comparisons and arithmetic on canonical rationals *)

Lemma Qc_gtb_spec (x y : Qc) : Qc_gtb x y = true <-> y < x.
Proof.
  unfold Qc_gtb. rewrite (Qcgt_alt x y).
  destruct (x ?= y); split; intro H; congruence.
Qed.

Lemma Qc_gtb_false (x y : Qc) : Qc_gtb x y = false <-> x <= y.
Proof.
  rewrite Qcle_alt. unfold Qc_gtb.
  destruct (x ?= y); split; intro H; congruence.
Qed.

Lemma Qc_leb_spec (x y : Qc) : Qc_leb x y = true <-> x <= y.
Proof.
  unfold Qc_leb. rewrite negb_true_iff. apply Qc_gtb_false.
Qed.

Lemma Qc_leb_false (x y : Qc) : Qc_leb x y = false <-> y < x.
Proof.
  unfold Qc_leb. rewrite negb_false_iff. apply Qc_gtb_spec.
Qed.

(** The underlying rational of a sum, product, ... up to [==]. *)
Lemma this_plus (x y : Qc) : (this (x + y) == this x + this y)%Q.
Proof. apply Qred_correct. Qed.

Lemma this_mult (x y : Qc) : (this (x * y) == this x * this y)%Q.
Proof. apply Qred_correct. Qed.

Lemma this_opp (x : Qc) : (this (- x) == - this x)%Q.
Proof. apply Qred_correct. Qed.

Lemma this_minus (x y : Qc) : (this (x - y) == this x - this y)%Q.
Proof.
  unfold Qcminus. rewrite this_plus, this_opp. reflexivity.
Qed.

Lemma this_Q2Qc (q : Q) : (this (Q2Qc q) == q)%Q.
Proof. apply Qred_correct. Qed.

(** Linear goals over [Qc] are sent to [Q] and closed by [lra]. *)
Ltac qc_to_q :=
  try apply Qc_is_canon;
  unfold Qclt, Qcle in *;
  repeat (rewrite ?this_minus, ?this_plus, ?this_mult, ?this_opp,
           ?this_Q2Qc in *).

Ltac qc_lra := qc_to_q; Lqa.lra.

Lemma this_inv (x : Qc) : (this (/ x) == / this x)%Q.
Proof. apply Qred_correct. Qed.

Lemma this_div (x y : Qc) : (this (x / y) == this x / this y)%Q.
Proof.
  unfold Qcdiv. rewrite this_mult, this_inv. reflexivity.
Qed.

(** [int] is the floor on non-negative numbers. *)
Lemma int_floor (q : Q) : (0 <= q)%Q -> Py.int q = Qfloor q.
Proof.
  destruct q as [n d]. unfold Qle, Py.int, Qfloor. simpl. intro H.
  apply Z.quot_div_nonneg; lia.
Qed.

Lemma Qdiv_floor_bounds (l m : Q) :
  (0 < m)%Q ->
  (inject_Z (Qfloor (l / m)) * m <= l)%Q
  /\ (l < (inject_Z (Qfloor (l / m)) + 1) * m)%Q.
Proof.
  intro Hm.
  assert (Hne : ~ (m == 0)%Q) by (intro E; rewrite E in Hm; Lqa.lra).
  assert (E : (l == (l / m) * m)%Q) by (field; exact Hne).
  pose proof (Qfloor_le (l / m)) as Hlo.
  pose proof (Qlt_floor (l / m)) as Hhi.
  rewrite inject_Z_plus in Hhi. change (inject_Z 1) with 1%Q in Hhi.
  split.
  - rewrite E at 2. apply Qmult_le_compat_r; [exact Hlo | Lqa.lra].
  - rewrite E at 1. apply Qmult_lt_compat_r; assumption.
Qed.

Lemma Qfloor_div_pos (l m : Q) :
  (0 < m)%Q -> (m <= l)%Q -> (1 <= Qfloor (l / m))%Z.
Proof.
  intros Hm Hl.
  change 1%Z with (Qfloor 1). apply Qfloor_resp_le.
  apply Qle_shift_div_l; [exact Hm | Lqa.lra].
Qed.

(** ** The ledger and the simple wind *)

Module WindFacts.

Import Py Wind.

(** [floor(lost_mass / particle_mass)], the count the specification
    names. *)
Definition floor_count (m : Qc) (s : star) : Z :=
  Qfloor (this (lost_mass s) / this m).

Lemma Ngas_floor (m : Qc) (s : star) :
  0 < m -> 0 <= lost_mass s -> Ngas m s = floor_count m s.
Proof.
  intros Hm Hl. unfold Ngas, floor_count.
  rewrite int_floor.
  - apply Qfloor_comp, this_div.
  - rewrite this_div. unfold Qclt, Qcle in *.
    change (this 0) with 0%Q in *.
    apply Qle_shift_div_l; [exact Hm | Lqa.lra].
Qed.

Lemma emit_stars_fst (w : SimpleWind) (l : list star) :
  fst (emit_stars w l) = flat_map (fun s => fst (emit_star w s)) l.
Proof.
  induction l as [|s l IH]; simpl; [reflexivity|].
  destruct (emit_star w s) as [g s'].
  destruct (emit_stars w l) as [gs rest']. simpl in *.
  now rewrite IH.
Qed.

Lemma emit_stars_snd (w : SimpleWind) (l : list star) :
  snd (emit_stars w l) = map (fun s => snd (emit_star w s)) l.
Proof.
  induction l as [|s l IH]; simpl; [reflexivity|].
  destruct (emit_star w s) as [g s'].
  destruct (emit_stars w l) as [gs rest']. simpl in *.
  now rewrite IH.
Qed.

Lemma create_wind_particles_fst (w : SimpleWind) :
  fst (create_wind_particles w)
  = flat_map (fun s => fst (emit_star w s)) (stars (particles w)).
Proof.
  unfold create_wind_particles. rewrite <- emit_stars_fst.
  destruct (emit_stars w (stars (particles w))); reflexivity.
Qed.

Lemma create_wind_particles_stars (w : SimpleWind) :
  stars (particles (snd (create_wind_particles w)))
  = map (fun s => snd (emit_star w s)) (stars (particles w)).
Proof.
  unfold create_wind_particles. rewrite <- emit_stars_snd.
  destruct (emit_stars w (stars (particles w))); reflexivity.
Qed.

(** *** Emission *)

Lemma emit_star_below (w : SimpleWind) (s : star) :
  lost_mass s <= sph_particle_mass w -> emit_star w s = ([], s).
Proof.
  intro H. unfold emit_star.
  now rewrite (proj2 (Qc_gtb_false _ _) H).
Qed.

Lemma emit_star_above (w : SimpleWind) (s : star) :
  sph_particle_mass w < lost_mass s ->
  emit_star w s
  = (fst (create_wind_particles_for_one_star w s),
     set_wind_release_time (model_time w)
       (snd (create_wind_particles_for_one_star w s))).
Proof.
  intro H. unfold emit_star.
  now rewrite (proj2 (Qc_gtb_spec _ _) H).
Qed.

(** The debit of one star: [N * m] is taken, less than [m] stays. *)
Lemma debit_bounds (m l : Qc) :
  0 < m -> m < l ->
  let N := Qfloor (this l / this m) in
  (1 <= N)%Z
  /\ l = Q2Qc (inject_Z N) * m + (l - Q2Qc (inject_Z N) * m)
  /\ 0 <= l - Q2Qc (inject_Z N) * m
  /\ l - Q2Qc (inject_Z N) * m < m.
Proof.
  intros Hm Hl N.
  assert (Hm' : (0 < this m)%Q) by exact Hm.
  destruct (Qdiv_floor_bounds (this l) (this m) Hm') as [Hlo Hhi].
  fold N in Hlo, Hhi.
  split; [|split; [|split]].
  - apply Qfloor_div_pos; [exact Hm' | apply Qlt_le_weak; exact Hl].
  - ring.
  - qc_lra.
  - qc_lra.
Qed.

(** *** The emission threshold *)

Lemma maximum_spec (l : list Qc) :
  l <> [] ->
  exists x, maximum l = Ok x /\ In x l /\ Forall (fun y => y <= x) l.
Proof.
  induction l as [|a l IH]; [congruence|]. intros _.
  destruct l as [|b l].
  - exists a. simpl. repeat split; auto.
    constructor; [apply Qcle_refl | constructor].
  - destruct IH as (x & Hx & Hin & Hall); [discriminate|].
    change (maximum (a :: b :: l))
      with (m <- maximum (b :: l) ;; Ok (if Qc_gtb a m then a else m)).
    rewrite Hx. simpl bind.
    destruct (Qc_gtb a x) eqn:E.
    + apply Qc_gtb_spec in E. exists a. repeat split.
      * now left.
      * constructor; [apply Qcle_refl|].
        eapply Forall_impl; [|exact Hall]. intros y Hy. simpl in Hy.
        eapply Qcle_trans; [exact Hy | apply Qclt_le_weak; exact E].
    + apply Qc_gtb_false in E. exists x. repeat split.
      * now right.
      * constructor; assumption.
Qed.

Lemma has_new_wind_particles_spec (w : SimpleWind) :
  stars (particles w) <> [] ->
  exists b, has_new_wind_particles w = Ok b
            /\ (b = true <->
                Exists (fun s => sph_particle_mass w < lost_mass s)
                       (stars (particles w))).
Proof.
  intro Hne. unfold has_new_wind_particles.
  destruct (maximum_spec (map lost_mass (stars (particles w))))
    as (x & Hx & Hin & Hall).
  { intro E. apply map_eq_nil in E. contradiction. }
  rewrite Hx. simpl. eexists. split; [reflexivity|].
  rewrite Qc_gtb_spec, Exists_exists. split.
  - intro Hlt. apply in_map_iff in Hin. destruct Hin as (s & Es & Hs).
    exists s. split; [exact Hs | now rewrite Es].
  - intros (s & Hs & Hlt).
    rewrite Forall_forall in Hall.
    eapply Qclt_le_trans; [exact Hlt|].
    apply Hall. now apply in_map.
Qed.

Lemma emit_stars_none (w : SimpleWind) (l : list star) :
  Forall (fun s => lost_mass s <= sph_particle_mass w) l ->
  emit_stars w l = ([], l).
Proof.
  induction 1 as [|s l Hs Hl IH]; simpl; [reflexivity|].
  now rewrite (emit_star_below _ _ Hs), IH.
Qed.

(** C9. A star whose [lost_mass] is exactly [sph_particle_mass] triggers no
    emission.  The per-star test of [create_wind_particles] leaves such a
    star alone; when in addition no other star exceeds the particle mass,
    [has_new_wind_particles] answers [False] and [create_wind_particles]
    returns an empty batch and an unchanged state.  Conversely a star
    releases particles only when its [lost_mass] strictly exceeds
    [sph_particle_mass], and [has_new_wind_particles] answers [True] only
    when some star does. *)
Theorem exact_particle_mass_emits_nothing (w : SimpleWind) (s : star) :
  In s (stars (particles w)) ->
  lost_mass s = sph_particle_mass w ->
  emit_star w s = ([], s)
  /\ (Forall (fun s' => lost_mass s' <= sph_particle_mass w)
             (stars (particles w)) ->
      has_new_wind_particles w = Ok false
      /\ create_wind_particles w = ([], w))
  /\ (forall s', fst (emit_star w s') <> [] \/ snd (emit_star w s') <> s' ->
                 sph_particle_mass w < lost_mass s')
  /\ (has_new_wind_particles w = Ok true ->
      exists s', In s' (stars (particles w))
                 /\ sph_particle_mass w < lost_mass s').
Proof.
  intros Hin Hs.
  assert (Hne : stars (particles w) <> [])
    by (intro E; rewrite E in Hin; exact Hin).
  destruct (has_new_wind_particles_spec w Hne) as (b & Hb & Hiff).
  split; [|split; [|split]].
  - apply emit_star_below. rewrite Hs. apply Qcle_refl.
  - intro Hall. split.
    + rewrite Hb. f_equal. destruct b; [|reflexivity].
      destruct Hiff as [Hex _]. specialize (Hex eq_refl).
      apply Exists_exists in Hex. destruct Hex as (s' & Hs' & Hlt).
      rewrite Forall_forall in Hall.
      exfalso. eapply Qclt_not_le; [exact Hlt | now apply Hall].
    + unfold create_wind_particles.
      rewrite (emit_stars_none _ _ Hall).
      destruct w as [m t p g dt tag]. destruct p. reflexivity.
  - intros s' H.
    destruct (Qc_gtb (lost_mass s') (sph_particle_mass w)) eqn:E.
    + now apply Qc_gtb_spec.
    + apply Qc_gtb_false in E. rewrite (emit_star_below _ _ E) in H.
      simpl in H. destruct H as [H|H]; congruence.
  - intro Ht. rewrite Hb in Ht. injection Ht as ->.
    apply Exists_exists. now apply Hiff.
Qed.

(** *** Advancing the ledger backward or not at all *)

(** What the ledger records, field by field. *)
Definition same_ledger (p p' : StarsWithMassLoss) : Prop :=
  map lost_mass (stars p') = map lost_mass (stars p)
  /\ map mechanical_energy (stars p') = map mechanical_energy (stars p)
  /\ map previous_mechanical_luminosity (stars p')
     = map previous_mechanical_luminosity (stars p)
  /\ timestamp p' = timestamp p
  /\ previous_time p' = previous_time p.

Lemma evolve_mass_loss_earlier (time : Qc) (p : StarsWithMassLoss) :
  time < previous_time p -> evolve_mass_loss time p = p.
Proof.
  intro H. unfold evolve_mass_loss.
  now rewrite (proj2 (Qc_gtb_spec _ _) H).
Qed.

Lemma evolve_mass_loss_later (time : Qc) (p : StarsWithMassLoss) :
  previous_time p <= time ->
  evolve_mass_loss time p
  = let elapsed_time := time - previous_time p in
    let st := map (accumulate elapsed_time) (stars p) in
    if track_mechanical_energy p then
      mk_stars
        (map (track_one (new_unset_lmech_particles p) elapsed_time) st)
        time time true false
    else mk_stars st time time false (new_unset_lmech_particles p).
Proof.
  intro H. unfold evolve_mass_loss.
  now rewrite (proj2 (Qc_gtb_false _ _) H).
Qed.

Lemma accumulate_zero (t : Qc) (s : star) : accumulate (t - t) s = s.
Proof.
  unfold accumulate, set_lost_mass. destruct s; simpl. f_equal. ring.
Qed.

Lemma mechanical_energy_track_zero (seed : bool) (t : Qc) (s : star) :
  mechanical_energy (track_one seed (t - t) s) = mechanical_energy s.
Proof. unfold track_one. simpl. ring. Qed.

(** A star whose stored luminosity is the current one is a fixed point of
    a zero-length step. *)
Lemma track_one_fixed (t : Qc) (s : star) :
  previous_mechanical_luminosity s = new_mechanical_luminosity s ->
  track_one false (t - t) s = s.
Proof.
  intro H. unfold track_one. simpl andb. cbv iota.
  unfold set_previous_mechanical_luminosity, set_mechanical_energy.
  destruct s as [k l r v rel me pl].
  unfold new_mechanical_luminosity in *. simpl in *. subst pl.
  f_equal. ring.
Qed.

Lemma map_fixed {A} (f : A -> A) (l : list A) :
  Forall (fun x => f x = x) l -> map f l = l.
Proof.
  induction 1 as [|x l Hx Hl IH]; simpl; congruence.
Qed.

Lemma evolve_mass_loss_idempotent (time : Qc) (p : StarsWithMassLoss) :
  evolve_mass_loss time (evolve_mass_loss time p) = evolve_mass_loss time p.
Proof.
  destruct (Qclt_le_dec time (previous_time p)) as [Hlt|Hle].
  - now rewrite !(evolve_mass_loss_earlier _ _ Hlt).
  - rewrite (evolve_mass_loss_later _ _ Hle). cbv zeta.
    destruct (track_mechanical_energy p) eqn:Et.
    + rewrite evolve_mass_loss_later by apply Qcle_refl.
      cbn [stars previous_time track_mechanical_energy
           new_unset_lmech_particles]. cbv zeta. f_equal.
      rewrite (map_fixed (accumulate (time - time)))
        by (apply Forall_forall; intros; apply accumulate_zero).
      apply map_fixed. apply Forall_forall. intros s Hs.
      apply in_map_iff in Hs. destruct Hs as (s0 & <- & _).
      apply track_one_fixed. reflexivity.
    + rewrite evolve_mass_loss_later by apply Qcle_refl.
      cbn [stars previous_time track_mechanical_energy
           new_unset_lmech_particles]. cbv zeta. f_equal.
      apply map_fixed. apply Forall_forall. intros; apply accumulate_zero.
Qed.

(** C5 (as amended).  Advancing the ledger to a time strictly before the
    last recorded one is ignored and changes nothing at all.  Advancing to
    the last recorded time itself is carried out with zero elapsed time:
    [lost_mass], [mechanical_energy] and [previous_time] keep their values
    and [timestamp] becomes that time, while with energy tracking on
    every star's [previous_mechanical_luminosity] is overwritten by its
    current mechanical luminosity.  Calling [evolve_mass_loss] twice with
    the same time changes nothing the second time. *)
Theorem evolve_mass_loss_not_forward (time : Qc) (p : StarsWithMassLoss) :
  (time < previous_time p -> evolve_mass_loss time p = p)
  /\ (time = previous_time p ->
      let p' := evolve_mass_loss time p in
      map lost_mass (stars p') = map lost_mass (stars p)
      /\ map mechanical_energy (stars p') = map mechanical_energy (stars p)
      /\ previous_time p' = previous_time p
      /\ timestamp p' = time
      /\ map previous_mechanical_luminosity (stars p')
         = if track_mechanical_energy p
           then map new_mechanical_luminosity (stars p)
           else map previous_mechanical_luminosity (stars p))
  /\ evolve_mass_loss time (evolve_mass_loss time p)
     = evolve_mass_loss time p.
Proof.
  split; [apply evolve_mass_loss_earlier|].
  split; [|apply evolve_mass_loss_idempotent].
  intros E p'. subst p' time.
  rewrite evolve_mass_loss_later by apply Qcle_refl. cbv zeta.
  rewrite (map_fixed (accumulate _))
    by (apply Forall_forall; intros; apply accumulate_zero).
  destruct (track_mechanical_energy p); cbn [stars previous_time timestamp];
    rewrite ?map_map; repeat split.
  apply map_ext. intro s. apply mechanical_energy_track_zero.
Qed.

(** A fresh collection that tracks mechanical energy, with one star just
    added: the stored luminosity is the sentinel [-1]. *)
Definition unseeded_star : star :=
  mk_star 0 0 (Q2Qc 2) (Q2Qc 3) 0 0 (- (1)).

Definition unseeded : StarsWithMassLoss :=
  mk_stars [unseeded_star] 0 0 true true.

(** C5, as stated, fails at a time equal to the last recorded one: the
    fresh tracking collection, advanced to time 0, has its stored
    luminosity changed from [-1] to [9]. *)
Lemma evolve_mass_loss_at_recorded_time_changes_ledger :
  ~ (forall time p, time <= previous_time p ->
                    same_ledger p (evolve_mass_loss time p)).
Proof.
  intro H. specialize (H 0 unseeded (Qcle_refl _)).
  destruct H as (_ & _ & H & _).
  vm_compute in H. discriminate H.
Qed.

(** *** The simulation clock *)

Lemma create_wind_particles_frame (w : SimpleWind) :
  let w' := snd (create_wind_particles w) in
  sph_particle_mass w' = sph_particle_mass w
  /\ model_time w' = model_time w
  /\ target_gas w' = target_gas w
  /\ timestep w' = timestep w
  /\ List.length (stars (particles w')) = List.length (stars (particles w)).
Proof.
  cbv zeta. rewrite create_wind_particles_stars, length_map.
  unfold create_wind_particles.
  destruct (emit_stars w (stars (particles w))). simpl. auto.
Qed.

Lemma add_to_target_frame (g : list gas) (w : SimpleWind) :
  let w' := add_to_target g w in
  sph_particle_mass w' = sph_particle_mass w
  /\ model_time w' = model_time w
  /\ particles w' = particles w
  /\ timestep w' = timestep w
  /\ has_target w' = has_target w.
Proof.
  unfold add_to_target, has_target.
  destruct (target_gas w) eqn:E; simpl; rewrite ?E; auto.
Qed.

Definition of_nat (n : nat) : Qc := Q2Qc (inject_Z (Z.of_nat n)).

Lemma of_nat_S (n : nat) : of_nat (S n) = of_nat n + 1.
Proof.
  unfold of_nat. apply Qc_is_canon.
  rewrite this_plus, !this_Q2Qc, Nat2Z.inj_succ.
  unfold Z.succ. rewrite inject_Z_plus. reflexivity.
Qed.

(** C7 (as amended).  With a target gas collection, [evolve_model] to a
    time earlier than [model_time] is a no-op: the state is returned as it
    is.  Without a target gas collection [evolve_model] sets [model_time]
    to the requested time, earlier or not; the mass-loss accounting is
    left unchanged when the requested time is earlier than the ledger's
    last recorded time. *)
Theorem evolve_model_earlier (fuel : nat) (time : Qc) (w : SimpleWind) :
  (has_target w = true -> time < model_time w ->
   evolve_model (S fuel) time w = Some (Ok w))
  /\ (has_target w = false ->
      exists w', evolve_model fuel time w = Some (Ok w')
                 /\ model_time w' = time
                 /\ (time < previous_time (particles w) ->
                     particles w' = particles w)).
Proof.
  split.
  - intros Ht Hlt. unfold evolve_model. rewrite Ht. simpl.
    now rewrite (proj2 (Qc_leb_false _ _) Hlt).
  - intro Ht. unfold evolve_model. rewrite Ht.
    eexists. split; [reflexivity|]. split; [reflexivity|].
    intro Hlt. simpl. now apply evolve_mass_loss_earlier.
Qed.

(** A wind without target gas and with one star (mass-loss rate 1,
    particle mass 1), and the same wind evolved to time 10. *)
Definition lone_star : star := mk_star 0 0 1 1 0 0 0.

Definition fresh : SimpleWind :=
  mk_wind 1 0 (mk_stars [lone_star] 0 0 false false) None None false.

Definition at_ten : SimpleWind :=
  evolve_particles (set_model_time (Q2Qc 10) fresh).

(** C7, as stated, fails without a target gas collection: asked to evolve
    to time 5, the wind whose clock shows 10 sets its clock back to 5. *)
Lemma evolve_model_sets_clock_back :
  ~ (forall fuel time w,
        time < model_time w ->
        exists w', evolve_model (S fuel) time w = Some (Ok w')
                   /\ model_time w' = model_time w).
Proof.
  intro H.
  destruct (H O (Q2Qc 5) at_ten) as (w' & Hev & Ht).
  - reflexivity.
  - vm_compute in Hev. injection Hev as <-.
    apply (f_equal this) in Ht. vm_compute in Ht. discriminate Ht.
Qed.

(** *** The initial wind *)

Lemma lost_mass_evolve (t : Qc) (p : StarsWithMassLoss) :
  previous_time p <= t ->
  map lost_mass (stars (evolve_mass_loss t p))
  = map (fun s => lost_mass s + (t - previous_time p)
                                * wind_mass_loss_rate s) (stars p).
Proof.
  intro H. rewrite (evolve_mass_loss_later _ _ H). cbv zeta.
  destruct (track_mechanical_energy p); cbn [stars]; rewrite !map_map;
    apply map_ext; intro s; reflexivity.
Qed.

Definition sum (l : list Qc) : Qc := fold_right Qcplus 0 l.

Lemma of_nat_Z (z : Z) :
  (0 <= z)%Z -> of_nat (Z.to_nat z) = Q2Qc (inject_Z z).
Proof. intro H. unfold of_nat. now rewrite Z2Nat.id. Qed.

Lemma create_wind_particles_masses (w : SimpleWind) :
  Forall (fun g => gas_mass g = sph_particle_mass w)
         (fst (create_wind_particles w)).
Proof.
  rewrite create_wind_particles_fst. apply Forall_forall.
  intros g Hg. apply in_flat_map in Hg. destruct Hg as (s & _ & Hg).
  unfold emit_star in Hg.
  destruct (Qc_gtb (lost_mass s) (sph_particle_mass w)); [|contradiction].
  simpl in Hg. apply repeat_spec in Hg. now subst g.
Qed.

(** *** The theorems at concrete inputs *)

(** One star that has lost exactly one particle mass. *)
Definition full_star : star := mk_star 0 1 1 1 0 0 0.

Definition brim : SimpleWind :=
  mk_wind 1 0 (mk_stars [full_star] 0 0 false false) None None false.

Lemma exact_particle_mass_emits_nothing_witness :
  In full_star (stars (particles brim))
  /\ lost_mass full_star = sph_particle_mass brim
  /\ emit_star brim full_star = ([], full_star)
  /\ has_new_wind_particles brim = Ok false
  /\ create_wind_particles brim = ([], brim).
Proof.
  split; [left; reflexivity|]. split; [reflexivity|].
  destruct (exact_particle_mass_emits_nothing
              brim full_star (or_introl eq_refl) eq_refl)
    as (H1 & H2 & _).
  split; [exact H1|]. apply H2.
  constructor; [apply Qcle_refl | constructor].
Defined.

(** A ledger whose last recorded time is 1. *)
Definition booked : StarsWithMassLoss :=
  mk_stars [lone_star] 1 1 false false.

Lemma evolve_mass_loss_not_forward_witness :
  (0 < previous_time booked /\ evolve_mass_loss 0 booked = booked)
  /\ (0 = previous_time unseeded
      /\ map lost_mass (stars (evolve_mass_loss 0 unseeded))
         = map lost_mass (stars unseeded)
      /\ map previous_mechanical_luminosity
             (stars (evolve_mass_loss 0 unseeded))
         = map new_mechanical_luminosity (stars unseeded))
  /\ evolve_mass_loss 0 (evolve_mass_loss 0 unseeded)
     = evolve_mass_loss 0 unseeded.
Proof.
  split; [split; [reflexivity|]|split; [split; [reflexivity|]|]].
  - exact (proj1 (evolve_mass_loss_not_forward 0 booked) eq_refl).
  - destruct (proj1 (proj2 (evolve_mass_loss_not_forward 0 unseeded))
                    eq_refl) as (H1 & _ & _ & _ & H5).
    split; [exact H1 | exact H5].
  - exact (proj2 (proj2 (evolve_mass_loss_not_forward 0 unseeded))).
Defined.

(** The wind at time 10 with an empty target gas collection and
    timestep 1. *)
Definition at_ten_target : SimpleWind := set_target_gas [] 1 at_ten.

Lemma evolve_model_earlier_witness :
  (has_target at_ten_target = true
   /\ Q2Qc 5 < model_time at_ten_target
   /\ evolve_model 1 (Q2Qc 5) at_ten_target = Some (Ok at_ten_target))
  /\ (has_target at_ten = false
      /\ Q2Qc 5 < previous_time (particles at_ten)
      /\ exists w', evolve_model 0 (Q2Qc 5) at_ten = Some (Ok w')
                    /\ model_time w' = Q2Qc 5
                    /\ particles w' = particles at_ten).
Proof.
  split.
  - split; [reflexivity|]. split; [reflexivity|].
    exact (proj1 (evolve_model_earlier 0 (Q2Qc 5) at_ten_target)
                 eq_refl eq_refl).
  - split; [reflexivity|]. split; [reflexivity|].
    destruct (proj2 (evolve_model_earlier 0 (Q2Qc 5) at_ten) eq_refl)
      as (w' & H1 & H2 & H3).
    exists w'. split; [exact H1|]. split; [exact H2|].
    exact (H3 eq_refl).
Defined.

End WindFacts.

(** ** The shell sampler *)

Module SamplerFacts.

Import Py Sampler.
Local Open Scope Q_scope.

(** *** The oversampling loop *)

(** The generator built for [grid_type="random"]. *)
Definition random_generator : PositionGenerator := mk_generator random_cube.

(** The stream that always draws 1/2: every row is (1/2, 1/2, 1/2), of
    squared norm 3/4. *)
Definition halves : stream := fun _ => 1 # 2.

(** *** The grid generators *)

(** C10. Of the three cube-filling strategies only ["random"] can produce
    samples.  A [PositionGenerator] constructed with [grid_type] ["regular"]
    or ["body_centered"] fails in every call of [uniform_hollow_sphere],
    whatever the count [N]: its cube generator takes no count argument and
    is called with one, which is a [TypeError] in the first round of the
    loop (unless the call has already failed on a zero
    [cube_sphere_ratio]); called without argument it would fail on the
    unbound name [targetN]. *)
Theorem grid_generators_fail (grid_type : string) :
  grid_type = "regular"%string \/ grid_type = "body_centered"%string ->
  exists g,
    init grid_type = Ok g
    /\ (forall fuel rng N rmin pos,
           exists e,
             uniform_hollow_sphere (S fuel) g rng N rmin pos
             = Some (Raise e)
             /\ (e = TypeError \/ e = ArithmeticError)
             /\ (~ cube_sphere_ratio rmin == 0 -> e = TypeError))
    /\ (forall rng pos n, cube_generator g rng pos [n] = Raise TypeError)
    /\ (forall rng pos,
           cube_generator g rng pos [] = Raise (NameError "targetN")).
Proof.
  intros [-> | ->]; eexists; (split; [reflexivity|]);
    (split; [|split; reflexivity]);
    intros fuel rng N rmin pos; unfold uniform_hollow_sphere;
    destruct (Qeq_bool (cube_sphere_ratio rmin) 0) eqn:E.
  - exists ArithmeticError. split; [reflexivity|]. split; [now right|].
    intro H. apply Qeq_bool_iff in E. contradiction.
  - exists TypeError. split; [reflexivity|]. split; [now left|].
    reflexivity.
  - exists ArithmeticError. split; [reflexivity|]. split; [now right|].
    intro H. apply Qeq_bool_iff in E. contradiction.
  - exists TypeError. split; [reflexivity|]. split; [now left|].
    reflexivity.
Qed.

Lemma grid_generators_fail_witness :
  exists g,
    init "regular" = Ok g
    /\ uniform_hollow_sphere 1 g halves 2 (1 # 2) 0 = Some (Raise TypeError).
Proof.
  destruct (grid_generators_fail "regular" (or_introl eq_refl))
    as (g & Hg & Hfail & _).
  exists g. split; [exact Hg|].
  destruct (Hfail O halves 2%nat (1 # 2) O) as (e & He & _ & Hty).
  rewrite He. rewrite Hty; [reflexivity|].
  intro H. vm_compute in H. discriminate H.
Defined.

End SamplerFacts.

(** ** The acceleration laws *)

Module LawsFacts.

Import Py Laws.
Local Open Scope R_scope.

Lemma Rgtb_false (x y : R) : x <= y -> Rgtb x y = false.
Proof.
  intro H. unfold Rgtb. destruct (Rlt_dec y x); [Lra.lra | reflexivity].
Qed.

Lemma Rgtb_true (x y : R) : y < x -> Rgtb x y = true.
Proof.
  intro H. unfold Rgtb. destruct (Rlt_dec y x); [reflexivity | Lra.lra].
Qed.

Lemma Rltb_false (x y : R) : y <= x -> Rltb x y = false.
Proof.
  intro H. unfold Rltb. destruct (Rlt_dec x y); [Lra.lra | reflexivity].
Qed.

Lemma half_eq : 0.5 = 1 / 2.
Proof. Lra.lra. Qed.

(** The usual geometry of a star: the acceleration starts at or above the
    surface and is cut off further out; velocities are speeds. *)
Definition well_formed (s : star) : Prop :=
  0 < radius s
  /\ radius s <= acc_start s
  /\ acc_start s < acc_cutoff s
  /\ 0 <= initial_wind_velocity s
  /\ 0 <= terminal_wind_velocity s.

(** *** The closed-form velocity laws *)

(** A star of radius 1 with the default ratios of [AcceleratingWind]
    ([acc_start] twice, [acc_cutoff] five times the radius), leaving the
    surface at speed 1 and ending at speed 2. *)
Definition sun : star := mk_star 1 5 2 1 2.

Lemma sun_well_formed : well_formed sun.
Proof. unfold well_formed, sun. simpl. repeat split; Lra.lra. Qed.

End LawsFacts.

(** ** More on the ledger: invariants of emission and of the clock loop *)

Module WindMore.

Import Py Wind WindFacts.

Lemma sum_app (l1 l2 : list Qc) : sum (l1 ++ l2) = sum l1 + sum l2.
Proof.
  unfold sum. induction l1 as [|x l1 IH]; simpl.
  - ring.
  - rewrite IH. ring.
Qed.

Lemma sum_repeat_mass (g : gas) (n : nat) :
  sum (map gas_mass (repeat g n)) = of_nat n * gas_mass g.
Proof.
  induction n as [|n IH]; unfold sum in *; simpl.
  - change (of_nat 0) with 0. ring.
  - rewrite IH, of_nat_S. ring.
Qed.

(** What a star releases and what it keeps add up to what it had. *)
Lemma emit_star_mass (w : SimpleWind) (s : star) :
  0 < sph_particle_mass w ->
  lost_mass s
  = sum (map gas_mass (fst (emit_star w s))) + lost_mass (snd (emit_star w s)).
Proof.
  intro Hm.
  destruct (Qclt_le_dec (sph_particle_mass w) (lost_mass s)) as [Hgt|Hle].
  - rewrite (emit_star_above _ _ Hgt). simpl.
    rewrite sum_repeat_mass. simpl.
    assert (Hl : 0 <= lost_mass s).
    { apply Qclt_le_weak. eapply Qclt_trans; eassumption. }
    rewrite (Ngas_floor _ _ Hm Hl). unfold floor_count.
    destruct (debit_bounds _ _ Hm Hgt) as (H1 & _).
    rewrite of_nat_Z by lia. ring.
  - rewrite (emit_star_below _ _ Hle). simpl. unfold sum. simpl. ring.
Qed.

Definition ledger_total (w : SimpleWind) : Qc :=
  sum (map lost_mass (stars (particles w))).

Definition batch_mass (g : list gas) : Qc := sum (map gas_mass g).

Lemma create_wind_particles_total_mass_aux (w : SimpleWind) :
  0 < sph_particle_mass w ->
  ledger_total w
  = batch_mass (fst (create_wind_particles w))
    + ledger_total (snd (create_wind_particles w)).
Proof.
  intro Hm. unfold ledger_total, batch_mass.
  rewrite create_wind_particles_fst, create_wind_particles_stars.
  induction (stars (particles w)) as [|s l IH]; simpl.
  - unfold sum. simpl. ring.
  - rewrite map_app, sum_app.
    change (sum (lost_mass s :: map lost_mass l))
      with (lost_mass s + sum (map lost_mass l)).
    change (sum (lost_mass (snd (emit_star w s))
                 :: map lost_mass (map (fun s => snd (emit_star w s)) l)))
      with (lost_mass (snd (emit_star w s))
            + sum (map lost_mass (map (fun s => snd (emit_star w s)) l))).
    rewrite IH. rewrite (emit_star_mass w s Hm) at 1. ring.
Qed.

(** *** The mass balance of the clock loop *)

Definition gas_total (w : SimpleWind) : Qc :=
  match target_gas w with
  | Some g => batch_mass g
  | None => 0
  end.

Lemma rates_evolve (time : Qc) (p : StarsWithMassLoss) :
  map wind_mass_loss_rate (stars (evolve_mass_loss time p))
  = map wind_mass_loss_rate (stars p).
Proof.
  unfold evolve_mass_loss.
  destruct (Qc_gtb (previous_time p) time); [reflexivity|].
  destruct (track_mechanical_energy p); cbn [stars]; rewrite !map_map;
    apply map_ext; intro s; reflexivity.
Qed.

Lemma rates_emit (w : SimpleWind) :
  map wind_mass_loss_rate (stars (particles (snd (create_wind_particles w))))
  = map wind_mass_loss_rate (stars (particles w)).
Proof.
  rewrite create_wind_particles_stars, map_map. apply map_ext. intro s.
  unfold emit_star.
  destruct (Qc_gtb (lost_mass s) (sph_particle_mass w)); reflexivity.
Qed.

Lemma sum_affine {A} (f g : A -> Qc) (c : Qc) (l : list A) :
  sum (map (fun x => f x + c * g x) l) = sum (map f l) + c * sum (map g l).
Proof.
  unfold sum. induction l as [|x l IH]; simpl.
  - ring.
  - rewrite IH. ring.
Qed.

(** What the stars have lost up to the last recorded time is on the ledgers
    or in the gas: this difference does not change. *)
Definition unaccounted (w : SimpleWind) : Qc :=
  ledger_total w + gas_total w
  - previous_time (particles w) * total_mass_loss w.

Lemma evolve_particles_balance (w : SimpleWind) :
  unaccounted (evolve_particles w) = unaccounted w
  /\ total_mass_loss (evolve_particles w) = total_mass_loss w.
Proof.
  assert (HT : total_mass_loss (evolve_particles w) = total_mass_loss w).
  { unfold total_mass_loss, evolve_particles. cbn [particles set_particles].
    now rewrite rates_evolve. }
  split; [|exact HT].
  unfold unaccounted. rewrite HT.
  unfold ledger_total, gas_total, evolve_particles.
  cbn [particles set_particles target_gas].
  destruct (Qclt_le_dec (model_time w) (previous_time (particles w)))
    as [Hlt|Hle].
  - now rewrite (evolve_mass_loss_earlier _ _ Hlt).
  - rewrite (lost_mass_evolve _ _ Hle), sum_affine.
    change (sum (map wind_mass_loss_rate (stars (particles w))))
      with (total_mass_loss w).
    rewrite (evolve_mass_loss_later _ _ Hle). cbv zeta.
    destruct (track_mechanical_energy (particles w));
      cbn [previous_time]; ring.
Qed.

Lemma batch_mass_app (g1 g2 : list gas) :
  batch_mass (g1 ++ g2) = batch_mass g1 + batch_mass g2.
Proof. unfold batch_mass. now rewrite map_app, sum_app. Qed.

Lemma emission_balance (w : SimpleWind) :
  has_target w = true ->
  0 < sph_particle_mass w ->
  let w' := add_to_target (fst (create_wind_particles w))
                          (snd (create_wind_particles w)) in
  unaccounted w' = unaccounted w
  /\ total_mass_loss w' = total_mass_loss w.
Proof.
  intros Ht Hm w'.
  pose proof (create_wind_particles_total_mass_aux w Hm) as Hmass.
  pose proof (rates_emit w) as Hrates.
  destruct (create_wind_particles_frame w) as (_ & _ & F3 & _).
  unfold create_wind_particles in *.
  destruct (emit_stars w (stars (particles w))) as [wind st].
  cbn [fst snd] in *. subst w'.
  unfold has_target in Ht.
  unfold unaccounted, total_mass_loss, ledger_total, gas_total, add_to_target
    in *.
  cbn [target_gas particles set_particles set_target stars previous_time]
    in *.
  destruct (target_gas w) as [g|]; [|discriminate].
  cbn [target_gas particles set_particles set_target stars previous_time].
  rewrite Hrates, batch_mass_app. split; [|reflexivity].
  rewrite Hmass. ring.
Qed.

(** How a later state of the wind relates to an earlier one. *)
Definition follows (w w1 : SimpleWind) : Prop :=
  unaccounted w1 = unaccounted w
  /\ total_mass_loss w1 = total_mass_loss w
  /\ sph_particle_mass w1 = sph_particle_mass w
  /\ has_target w1 = has_target w
  /\ exists added,
      target_gas w1 = option_map (fun g => g ++ added) (target_gas w)
      /\ Forall (fun g => gas_mass g = sph_particle_mass w) added.

Lemma follows_refl (w : SimpleWind) : follows w w.
Proof.
  repeat split. exists []. split; [|constructor].
  destruct (target_gas w); simpl; now rewrite ?app_nil_r.
Qed.

Lemma follows_trans (w w1 w2 : SimpleWind) :
  follows w w1 -> follows w1 w2 -> follows w w2.
Proof.
  intros (A1 & A2 & A3 & A4 & a & A5 & A6) (B1 & B2 & B3 & B4 & b & B5 & B6).
  split; [congruence|]. split; [congruence|]. split; [congruence|].
  split; [congruence|].
  exists (a ++ b). split.
  - rewrite B5, A5. destruct (target_gas w); simpl; now rewrite ?app_assoc.
  - apply Forall_app. split; [exact A6|]. now rewrite <- A3.
Qed.

Lemma follows_evolve_particles (w : SimpleWind) :
  follows w (evolve_particles w).
Proof.
  destruct (evolve_particles_balance w) as [H1 H2].
  split; [exact H1|]. split; [exact H2|]. split; [reflexivity|].
  split; [reflexivity|].
  exists []. split; [|constructor].
  simpl. destruct (target_gas w); simpl; now rewrite ?app_nil_r.
Qed.

Lemma follows_emission (w : SimpleWind) :
  has_target w = true -> 0 < sph_particle_mass w ->
  follows w (add_to_target (fst (create_wind_particles w))
                           (snd (create_wind_particles w))).
Proof.
  intros Ht Hm.
  destruct (emission_balance w Ht Hm) as [H1 H2].
  destruct (create_wind_particles_frame w) as (F1 & _ & F3 & _).
  pose proof (add_to_target_frame (fst (create_wind_particles w))
                                  (snd (create_wind_particles w)))
    as (G1 & _ & _ & _ & G5).
  cbv zeta in *.
  split; [exact H1|]. split; [exact H2|].
  split; [now rewrite G1, F1|].
  split.
  { rewrite G5. unfold has_target. now rewrite F3. }
  exists (fst (create_wind_particles w)). split.
  - unfold add_to_target. rewrite F3.
    unfold has_target in Ht.
    destruct (target_gas w); [reflexivity | discriminate Ht].
  - apply create_wind_particles_masses.
Qed.

Lemma follows_step (w w1 : SimpleWind) :
  has_target w = true -> 0 < sph_particle_mass w ->
  evolve_model_step w = Ok w1 -> follows w w1.
Proof.
  intros Ht Hm. unfold evolve_model_step.
  pose proof (follows_evolve_particles w) as H1.
  destruct (has_new_wind_particles (evolve_particles w)) as [b|e];
    [|discriminate].
  simpl bind.
  set (w2 := if b then _ else _).
  assert (H2 : follows w w2).
  { subst w2. destruct b; [|exact H1].
    eapply follows_trans; [exact H1|].
    pose proof (follows_emission (evolve_particles w)) as H2.
    destruct (create_wind_particles (evolve_particles w)) as [wind w'].
    apply H2; [exact Ht | exact Hm]. }
  destruct (timestep w2); [|discriminate].
  intro E. injection E as <-.
  eapply follows_trans; [exact H2|].
  repeat split. exists []. split; [|constructor].
  simpl. destruct (target_gas w2); simpl; now rewrite ?app_nil_r.
Qed.

Lemma follows_loop (time : Qc) (n : nat) (w w' : SimpleWind) :
  has_target w = true -> 0 < sph_particle_mass w ->
  loop_runs time n w w' -> follows w w'.
Proof.
  intros Ht Hm Hruns. induction Hruns as [w Hlt | n w w1 w' Hle Hstep Hruns IH].
  - apply follows_refl.
  - pose proof (follows_step w w1 Ht Hm Hstep) as H1.
    eapply follows_trans; [exact H1|].
    destruct H1 as (_ & _ & H3 & H4 & _).
    apply IH; [now rewrite H4 | now rewrite H3].
Qed.

Lemma loop_runs_of_fuel (fuel : nat) (time : Qc) (w w' : SimpleWind) :
  evolve_model_loop fuel time w = Some (Ok w') ->
  exists n, loop_runs time n w w'.
Proof.
  revert w. induction fuel as [|fuel IH]; intro w; [discriminate|].
  simpl. destruct (Qc_leb (model_time w) time) eqn:E.
  - destruct (evolve_model_step w) as [w1|e] eqn:Es; [|discriminate].
    intro H. destruct (IH w1 H) as (n & Hn).
    exists (S n). econstructor; [|exact Es | exact Hn].
    now apply Qc_leb_spec.
  - intro H. injection H as <-. exists O. constructor.
    now apply Qc_leb_false.
Qed.

(** X5. The target gas collection is only ever appended to: after
    [evolve_model] the gas that was in the target is still there, in the
    same order, followed by the new particles, each of the configured
    particle mass. *)
Theorem evolve_model_appends_to_target
        (fuel : nat) (time : Qc) (w w' : SimpleWind) (g : list gas) :
  target_gas w = Some g ->
  0 < sph_particle_mass w ->
  evolve_model fuel time w = Some (Ok w') ->
  exists added,
    target_gas w' = Some (g ++ added)
    /\ Forall (fun p => gas_mass p = sph_particle_mass w) added.
Proof.
  intros Hg Hm.
  assert (Ht : has_target w = true) by (unfold has_target; now rewrite Hg).
  unfold evolve_model. rewrite Ht. intro Hrun.
  destruct (loop_runs_of_fuel _ _ _ _ Hrun) as (n & Hn).
  destruct (follows_loop time n w w' Ht Hm Hn)
    as (_ & _ & _ & _ & added & H5 & H6).
  exists added. rewrite H5, Hg. split; [reflexivity | exact H6].
Qed.

(** The fresh wind with an empty target and a timestep of one time unit. *)
Definition yearly : SimpleWind := set_target_gas [] 1 fresh.

Lemma evolve_model_appends_to_target_witness :
  target_gas yearly = Some []
  /\ 0 < sph_particle_mass yearly
  /\ exists w' added,
      evolve_model 20 (Q2Qc 10) yearly = Some (Ok w')
      /\ target_gas w' = Some ([] ++ added)
      /\ Forall (fun p => gas_mass p = sph_particle_mass yearly) added.
Proof.
  split; [reflexivity|]. split; [reflexivity|].
  destruct (evolve_model 20 (Q2Qc 10) yearly) as [[w'|e]|] eqn:E.
  - destruct (evolve_model_appends_to_target 20 (Q2Qc 10) yearly w' []
                eq_refl eq_refl E) as (added & H1 & H2).
    exists w', added. split; [reflexivity|]. split; assumption.
  - exfalso. vm_compute in E. discriminate E.
  - exfalso. vm_compute in E. discriminate E.
Defined.

End WindMore.

(** ** Mass loss derived from stellar evolution *)

Module EvolvingFacts.

Import Py Wind WindFacts Evolving.
















End EvolvingFacts.

(** ** More on the shell sampler *)

Module SamplerMore.

Import Py Sampler SamplerFacts.
Local Open Scope Q_scope.

(** No point lies in a shell whose inner radius is 1 or more. *)
Lemma in_shell_empty (rmin : Q) (p : point) :
  1 <= rmin -> in_shell rmin p = false.
Proof.
  intro H. unfold in_shell.
  destruct (Qle_bool 1 (norm2 p)) eqn:E1; [apply andb_false_r|].
  simpl. rewrite andb_true_r.
  apply orb_false_iff. split; apply not_true_iff_false;
    rewrite Qle_bool_iff; intro H2.
  - Lqa.lra.
  - apply not_true_iff_false in E1. apply E1. apply Qle_bool_iff.
    Lqa.nra.
Qed.

Lemma cutout_sphere_empty (rmin : Q) (l : list point) :
  1 <= rmin -> cutout_sphere l rmin = [].
Proof.
  intro H. unfold cutout_sphere. induction l as [|p l IH]; simpl.
  - reflexivity.
  - now rewrite (in_shell_empty rmin p H).
Qed.

Definition no_sample (r : option (result (list point * nat))) : Prop :=
  match r with
  | Some (Ok _) => False
  | _ => True
  end.

Lemma hollow_loop_empty (rng : stream) (N : nat) (rmin : Q) (fuel : nat) :
  1 <= rmin -> (1 <= N)%nat ->
  forall est pos,
    no_sample (hollow_loop fuel random_generator rng N rmin est pos).
Proof.
  intros Hr HN.
  induction fuel as [|fuel IH]; intros est pos; simpl; [exact I|].
  destruct (int (est * (11 # 10) + 1) <? 0)%Z; [exact I|].
  rewrite (cutout_sphere_empty rmin _ Hr). simpl List.length.
  destruct N as [|N]; [lia|]. simpl Nat.leb. apply IH.
Qed.

(** X12. A shell fraction of 1 or more never yields a sample.  For
    [rmin = 1] - the outer radius equal to the stellar radius, as when no
    time has passed since the last release - the call fails at once on the
    zero [cube_sphere_ratio]; for [rmin > 1] no candidate can survive the
    cut-out, so the call ends in an error or never leaves its loop. *)
Theorem uniform_hollow_sphere_degenerate
        (fuel : nat) (rng : stream) (N : nat) (rmin : Q) (pos : nat) :
  1 <= rmin -> (1 <= N)%nat ->
  no_sample (uniform_hollow_sphere fuel random_generator rng N rmin pos)
  /\ (rmin == 1 ->
      uniform_hollow_sphere fuel random_generator rng N rmin pos
      = Some (Raise ArithmeticError)).
Proof.
  intros Hr HN. unfold uniform_hollow_sphere. split.
  - destruct (Qeq_bool (cube_sphere_ratio rmin) 0); [exact I|].
    now apply hollow_loop_empty.
  - intro E.
    assert (Hz : cube_sphere_ratio rmin == 0).
    { unfold cube_sphere_ratio. rewrite E. ring. }
    now rewrite (proj2 (Qeq_bool_iff _ _) Hz).
Qed.

Lemma uniform_hollow_sphere_degenerate_witness :
  1 <= 1 /\ (1 <= 2)%nat
  /\ uniform_hollow_sphere 7 random_generator halves 2 1 0
     = Some (Raise ArithmeticError).
Proof.
  assert (H1 : 1 <= 1) by discriminate.
  assert (H2 : (1 <= 2)%nat) by lia.
  split; [exact H1|]. split; [exact H2|].
  apply (proj2 (uniform_hollow_sphere_degenerate 7 halves 2 1 0 H1 H2)).
  reflexivity.
Defined.

End SamplerMore.

(** ** The wind sphere of the accelerating wind *)

Module SphereFacts.

Import Py Laws LawsFacts Sphere.
Local Open Scope R_scope.




End SphereFacts.

(** ** More on the acceleration laws *)

Module LawsMore.

Import Py Laws LawsFacts Sphere Accel.
Local Open Scope R_scope.

(** *** The velocity grows outward *)

Lemma inv_antitone (x y : R) : 0 < x -> x <= y -> 1 / y <= 1 / x.
Proof.
  intros Hx Hxy. unfold Rdiv. rewrite !Rmult_1_l.
  now apply Rinv_le_contravar.
Qed.

Lemma inv_gap_pos (a c : R) : 0 < a -> a < c -> 0 < 1 / a - 1 / c.
Proof.
  intros Ha Hc. unfold Rdiv. rewrite !Rmult_1_l.
  assert (H : / c < / a) by (apply Rinv_lt_contravar; Lra.nra).
  Lra.lra.
Qed.

(** The square of the velocity of an inverse-square law that starts at
    [a] and is cut off at [c]. *)
Definition profile (a c v0 vt r : R) : R :=
  2 * (0.5 * ((vt ^ 2 - v0 ^ 2) / (1 / a - 1 / c))) * (1 / a - 1 / r)
  + v0 ^ 2.

(** The fraction of the way from [a] to [c] in [1 / r]. *)
Definition fraction (a c r : R) : R := (1 / a - 1 / r) / (1 / a - 1 / c).

Lemma profile_fraction (a c v0 vt r : R) :
  0 < a -> a < c ->
  profile a c v0 vt r = v0 ^ 2 + (vt ^ 2 - v0 ^ 2) * fraction a c r.
Proof.
  intros Ha Hc. pose proof (inv_gap_pos a c Ha Hc) as HD.
  unfold profile, fraction. rewrite half_eq.
  set (D := 1 / a - 1 / c) in *. set (n := 1 / a - 1 / r).
  field. Lra.lra.
Qed.

Lemma fraction_monotone (a c r1 r2 : R) :
  0 < a -> a < c -> a <= r1 -> r1 <= r2 -> r2 <= c ->
  0 <= fraction a c r1 /\ fraction a c r1 <= fraction a c r2
  /\ fraction a c r2 <= 1.
Proof.
  intros Ha Hc H1 H12 H2.
  pose proof (inv_gap_pos a c Ha Hc) as HD.
  pose proof (inv_antitone a r1 Ha H1) as I1.
  pose proof (inv_antitone r1 r2 ltac:(Lra.lra) H12) as I2.
  pose proof (inv_antitone r2 c ltac:(Lra.lra) H2) as I3.
  unfold fraction.
  assert (N1 : 0 <= 1 / a - 1 / r1) by Lra.lra.
  assert (N12 : 1 / a - 1 / r1 <= 1 / a - 1 / r2) by Lra.lra.
  assert (N2 : 1 / a - 1 / r2 <= 1 / a - 1 / c) by Lra.lra.
  set (D := 1 / a - 1 / c) in *.
  set (n1 := 1 / a - 1 / r1) in *. set (n2 := 1 / a - 1 / r2) in *.
  assert (HiD : 0 < / D) by now apply Rinv_0_lt_compat.
  assert (E : D * / D = 1) by (apply Rinv_r; Lra.lra).
  unfold Rdiv. set (i := / D) in *. repeat split; Lra.nra.
Qed.

(** *** The acceleration is the gradient of the kinetic energy *)

Lemma profile_nonneg (a c v0 vt r : R) :
  0 < a -> a < c -> a <= r -> r <= c -> 0 <= profile a c v0 vt r.
Proof.
  intros Ha Hc H1 H2.
  destruct (fraction_monotone a c r r Ha Hc H1 ltac:(Lra.lra) H2)
    as (F1 & _ & F2).
  rewrite profile_fraction by assumption.
  set (f := fraction a c r) in *.
  pose proof (pow2_ge_0 v0). pose proof (pow2_ge_0 vt). Lra.nra.
Qed.

Lemma inverse_square_gradient (S a c0 r : R) :
  0 < r ->
  derivable_pt_lim (fun x => S * (1 / a - 1 / x) + c0) r (S / r ^ 2).
Proof.
  intro Hr.
  apply (derivable_pt_lim_ext
           (fct_cte (S * (1 / a) + c0)
            - mult_real_fct S (fct_cte 1 / id))%F).
  { intro z. unfold minus_fct, mult_real_fct, div_fct, fct_cte, id.
    unfold Rdiv. ring. }
  replace (S / r ^ 2)
    with (0 - S * ((0 * id r - 1 * fct_cte 1 r) / Rsqr (id r)))
    by (unfold id, fct_cte, Rsqr; field; Lra.lra).
  apply derivable_pt_lim_minus; [apply derivable_pt_lim_const|].
  apply derivable_pt_lim_scal.
  apply derivable_pt_lim_div;
    [apply derivable_pt_lim_const | apply derivable_pt_lim_id |].
  unfold id. Lra.lra.
Qed.

Lemma constant_gradient (f : R -> R) (c a b r : R) :
  a < r < b -> (forall z, a < z < b -> f z = c) ->
  derivable_pt_lim f r 0.
Proof.
  intros Hr Hf.
  apply (derivable_pt_lim_locally_ext (fct_cte c) f r a b 0 Hr).
  - intros z Hz. unfold fct_cte. symmetry. now apply Hf.
  - apply derivable_pt_lim_const.
Qed.

Lemma kinetic_profile (a c v0 vt z : R) :
  0 < a -> a < c -> a <= z -> z <= c ->
  0.5 * ((vt ^ 2 - v0 ^ 2) / (1 / a - 1 / c)) * (1 / a - 1 / z)
  + v0 ^ 2 / 2
  = sqrt (profile a c v0 vt z) ^ 2 / 2.
Proof.
  intros Ha Hc H1 H2.
  pose proof (profile_nonneg a c v0 vt z Ha Hc H1 H2) as Hp.
  replace (sqrt (profile a c v0 vt z) ^ 2)
    with (sqrt (profile a c v0 vt z) * sqrt (profile a c v0 vt z))
    by ring.
  rewrite sqrt_sqrt by exact Hp. unfold profile.
  set (S := 0.5 * ((vt ^ 2 - v0 ^ 2) / (1 / a - 1 / c))).
  set (n := 1 / a - 1 / z). Lra.lra.
Qed.

(** The radius from which a law accelerates. *)
Definition zone_start (l : law) (s : star) : R :=
  match l with
  | DelayedRSquaredAcceleration => acc_start s
  | _ => radius s
  end.

(** X17. The two inverse-square laws are consistent: the velocity they
    return is the one their acceleration produces.  For a well-formed
    star, at every radius strictly inside the acceleration zone (from
    [star.radius], or from [star.acc_start] for the delayed law, to
    [star.acc_cutoff]) and at every radius beyond the cutoff,
    [acceleration_from_radius] is the derivative with respect to the
    radius of half the square of [velocity_from_radius]; beyond the cutoff
    both are constant: no acceleration, terminal velocity. *)
Theorem inverse_square_acceleration_matches_velocity
        (l : law) (s : star) (r : R) :
  well_formed s ->
  l = RSquaredAcceleration \/ l = DelayedRSquaredAcceleration ->
  zone_start l s < r < acc_cutoff s \/ acc_cutoff s < r ->
  exists a,
    acceleration_from_radius l r s = Ok (Some a)
    /\ derivable_pt_lim (fun x => speed l x s ^ 2 / 2) r a
    /\ (acc_cutoff s < r ->
        a = 0 /\ speed l r s = terminal_wind_velocity s).
Proof.
  intros (Hr & Ha & Hc & Hvi & Hve) Hl Hz.
  assert (Hrc : radius s < acc_cutoff s) by Lra.lra.
  assert (Hs : 0 < acc_start s) by Lra.lra.
  destruct Hz as [Hin | Hout].
  - assert (Hpos : 0 < r) by (destruct Hl; subst l; simpl in Hin; Lra.lra).
    destruct Hl; subst l; simpl in Hin;
      unfold acceleration_from_radius; cbv zeta;
      unfold fix_acc_cutoff, fix_acc_start_cutoff, fix_cutoffs;
      rewrite (Rgtb_false r (acc_cutoff s)) by Lra.lra.
    + eexists. split; [reflexivity|]. split; [|intro; Lra.lra].
      apply (derivable_pt_lim_locally_ext
               (fun x => rsquared_scaling s * (1 / radius s - 1 / x)
                         + initial_wind_velocity s ^ 2 / 2)
               _ r (radius s) (acc_cutoff s) _ Hin).
      * intros z Hzz. unfold speed, velocity_from_radius. cbv zeta.
        unfold fix_v_cutoff, fix_cutoffs.
        rewrite (Rgtb_false z (acc_cutoff s)) by Lra.lra.
        unfold rsquared_scaling.
        fold (profile (radius s) (acc_cutoff s) (initial_wind_velocity s)
                      (terminal_wind_velocity s) z).
        apply kinetic_profile; Lra.lra.
      * now apply inverse_square_gradient.
    + rewrite (Rltb_false r (acc_start s)) by Lra.lra.
      eexists. split; [reflexivity|]. split; [|intro; Lra.lra].
      apply (derivable_pt_lim_locally_ext
               (fun x => delayed_scaling s * (1 / acc_start s - 1 / x)
                         + initial_wind_velocity s ^ 2 / 2)
               _ r (acc_start s) (acc_cutoff s) _ Hin).
      * intros z Hzz. unfold speed, velocity_from_radius. cbv zeta.
        unfold fix_v_cutoff, fix_v_start_cutoff, fix_cutoffs.
        rewrite (Rgtb_false z (acc_cutoff s)) by Lra.lra.
        rewrite (Rltb_false z (acc_start s)) by Lra.lra.
        unfold delayed_scaling.
        fold (profile (acc_start s) (acc_cutoff s)
                      (initial_wind_velocity s)
                      (terminal_wind_velocity s) z).
        apply kinetic_profile; Lra.lra.
      * now apply inverse_square_gradient.
  - assert (Hsp : forall z, acc_cutoff s < z ->
                            speed l z s = terminal_wind_velocity s).
    { intros z Hzz.
      destruct Hl; subst l; unfold speed, velocity_from_radius; cbv zeta;
        unfold fix_v_cutoff, fix_cutoffs;
        now rewrite (Rgtb_true z (acc_cutoff s) Hzz). }
    exists 0. split; [|split].
    + destruct Hl; subst l; unfold acceleration_from_radius; cbv zeta;
        unfold fix_acc_cutoff, fix_cutoffs;
        now rewrite (Rgtb_true r (acc_cutoff s) Hout).
    + apply (constant_gradient _ (terminal_wind_velocity s ^ 2 / 2)
                               (acc_cutoff s) (r + 1));
        [Lra.lra|].
      intros z Hzz. rewrite Hsp by Lra.lra. reflexivity.
    + intros _. split; [reflexivity | now apply Hsp].
Qed.

Lemma inverse_square_acceleration_matches_velocity_witness :
  (well_formed sun
   /\ zone_start DelayedRSquaredAcceleration sun < 3 < acc_cutoff sun)
  /\ exists a,
      acceleration_from_radius DelayedRSquaredAcceleration 3 sun
      = Ok (Some a)
      /\ derivable_pt_lim
           (fun x => speed DelayedRSquaredAcceleration x sun ^ 2 / 2) 3 a.
Proof.
  assert (Hz : zone_start DelayedRSquaredAcceleration sun < 3
               < acc_cutoff sun) by (simpl; Lra.lra).
  split; [exact (conj sun_well_formed Hz)|].
  destruct (inverse_square_acceleration_matches_velocity
              DelayedRSquaredAcceleration sun 3 sun_well_formed
              (or_intror eq_refl) (or_introl Hz))
    as (a & E & D & _).
  exists a. exact (conj E D).
Defined.

(** The exponent and the velocity of the logistic law as functions of the
    radius. *)
Definition logistic_arg (k m x : R) : R := - k * (x - m) / m.

Definition logistic_v (v0 vt k m x : R) : R :=
  v0 + (vt - v0) / (1 + exp (logistic_arg k m x)).

Lemma logistic_arg_gradient (k m r : R) :
  derivable_pt_lim (logistic_arg k m) r (- k / m).
Proof.
  apply (derivable_pt_lim_ext
           (mult_real_fct (- k / m) (id - fct_cte m))%F).
  { intro z. unfold logistic_arg, mult_real_fct, minus_fct, id, fct_cte.
    unfold Rdiv. ring. }
  replace (- k / m) with (- k / m * (1 - 0)) at 2 by ring.
  apply derivable_pt_lim_scal.
  apply derivable_pt_lim_minus;
    [apply derivable_pt_lim_id | apply derivable_pt_lim_const].
Qed.

Lemma logistic_v_gradient (v0 vt k m r : R) :
  m <> 0 ->
  derivable_pt_lim
    (logistic_v v0 vt k m) r
    (k * (vt - v0) * exp (logistic_arg k m r)
     / (m * (1 + exp (logistic_arg k m r)) ^ 2)).
Proof.
  intro Hm.
  pose proof (exp_pos (logistic_arg k m r)) as He.
  apply (derivable_pt_lim_ext
           (fct_cte v0
            + fct_cte (vt - v0)
              / (fct_cte 1 + comp exp (logistic_arg k m)))%F).
  { intro z. reflexivity. }
  set (e := exp (logistic_arg k m r)) in *.
  replace (k * (vt - v0) * e / (m * (1 + e) ^ 2))
    with (0 + (0 * (fct_cte 1 + comp exp (logistic_arg k m))%F r
               - (0 + e * (- k / m)) * fct_cte (vt - v0) r)
              / Rsqr ((fct_cte 1 + comp exp (logistic_arg k m))%F r)).
  2:{ unfold plus_fct, comp, fct_cte, Rsqr. fold e. field.
      split; Lra.lra. }
  apply derivable_pt_lim_plus; [apply derivable_pt_lim_const|].
  apply derivable_pt_lim_div.
  - apply derivable_pt_lim_const.
  - apply derivable_pt_lim_plus; [apply derivable_pt_lim_const|].
    apply derivable_pt_lim_comp;
      [apply logistic_arg_gradient | apply derivable_pt_lim_exp].
  - unfold plus_fct, comp, fct_cte. fold e. Lra.lra.
Qed.

Lemma half_square_gradient (f : R -> R) (r l : R) :
  derivable_pt_lim f r l ->
  derivable_pt_lim (fun x => f x ^ 2 / 2) r (f r * l).
Proof.
  intro H.
  apply (derivable_pt_lim_ext (mult_real_fct (/ 2) (f * f))%F).
  { intro z. unfold mult_real_fct, mult_fct. field. }
  replace (f r * l) with (/ 2 * (l * f r + f r * l)) by field.
  apply derivable_pt_lim_scal. now apply derivable_pt_lim_mult.
Qed.

(** X18. The logistic law is consistent as well.  For a midpoint other
    than zero, at every radius below the cutoff
    [acceleration_from_radius] is the derivative with respect to the
    radius of half the square of [velocity_from_radius]; beyond the cutoff
    the acceleration is zero and the velocity is the terminal wind
    velocity. *)
Theorem logistic_acceleration_matches_velocity
        (k : R) (r_mid : option R) (s : star) (r : R) :
  logistic_mid r_mid s <> 0 ->
  r < acc_cutoff s \/ acc_cutoff s < r ->
  exists a,
    acceleration_from_radius (LogisticVelocityAcceleration k r_mid) r s
    = Ok (Some a)
    /\ derivable_pt_lim
         (fun x => speed (LogisticVelocityAcceleration k r_mid) x s ^ 2 / 2)
         r a
    /\ (acc_cutoff s < r ->
        a = 0
        /\ speed (LogisticVelocityAcceleration k r_mid) r s
           = terminal_wind_velocity s).
Proof.
  intros Hm [Hin | Hout].
  - unfold acceleration_from_radius. cbv zeta.
    unfold fix_acc_cutoff, fix_cutoffs.
    rewrite (Rgtb_false r (acc_cutoff s)) by Lra.lra.
    eexists. split; [reflexivity|]. split; [|intro; Lra.lra].
    set (m := logistic_mid r_mid s) in *.
    apply (derivable_pt_lim_locally_ext
             (fun x => logistic_v (initial_wind_velocity s)
                                  (terminal_wind_velocity s) k m x ^ 2 / 2)
             _ r (r - 1) (acc_cutoff s) _ ltac:(Lra.lra)).
    + intros z Hz. unfold speed, velocity_from_radius. cbv zeta.
      unfold fix_v_cutoff, fix_cutoffs.
      rewrite (Rgtb_false z (acc_cutoff s)) by Lra.lra. reflexivity.
    + apply (half_square_gradient
               (logistic_v (initial_wind_velocity s)
                           (terminal_wind_velocity s) k m)).
      now apply logistic_v_gradient.
  - assert (Hsp : forall z, acc_cutoff s < z ->
                            speed (LogisticVelocityAcceleration k r_mid) z s
                            = terminal_wind_velocity s).
    { intros z Hzz. unfold speed, velocity_from_radius. cbv zeta.
      unfold fix_v_cutoff, fix_cutoffs.
      now rewrite (Rgtb_true z (acc_cutoff s) Hzz). }
    exists 0. split; [|split].
    + unfold acceleration_from_radius. cbv zeta.
      unfold fix_acc_cutoff, fix_cutoffs.
      now rewrite (Rgtb_true r (acc_cutoff s) Hout).
    + apply (constant_gradient _ (terminal_wind_velocity s ^ 2 / 2)
                               (acc_cutoff s) (r + 1));
        [Lra.lra|].
      intros z Hzz. rewrite Hsp by Lra.lra. reflexivity.
    + intros _. split; [reflexivity | now apply Hsp].
Qed.

Lemma logistic_acceleration_matches_velocity_witness :
  (logistic_mid None sun <> 0 /\ 2 < acc_cutoff sun)
  /\ exists a,
      acceleration_from_radius (LogisticVelocityAcceleration 10 None) 2 sun
      = Ok (Some a)
      /\ derivable_pt_lim
           (fun x =>
              speed (LogisticVelocityAcceleration 10 None) x sun ^ 2 / 2)
           2 a.
Proof.
  assert (Hm : logistic_mid None sun <> 0) by (simpl; Lra.lra).
  assert (Hc : 2 < acc_cutoff sun) by (simpl; Lra.lra).
  split; [exact (conj Hm Hc)|].
  destruct (logistic_acceleration_matches_velocity
              10 None sun 2 Hm (or_introl Hc))
    as (a & E & D & _).
  exists a. exact (conj E D).
Defined.

End LawsMore.

(** ** Radial velocities and the terminal velocity of Kudritzki *)

Module AccelFacts.

Import Py Laws LawsFacts Sphere SphereFacts Accel.
Local Open Scope R_scope.

(** The square of the escape velocity [kudritzki_wind_velocity] takes the
    root of. *)
Definition escape_squared (G mass radius luminosity Y I_He : R) : R :=
  2 * G * mass / radius
  * (1 - 7.66e-5 * (0.398 * (1 + I_He * Y) / (1 + 4 * Y))
         * (luminosity / mass)).

(** X20. [kudritzki_wind_velocity] scales the escape velocity by
    temperature band.  The three conditions handed to [numpy.select] cover
    every temperature, so its default [0] is never chosen: the result is
    2.65 times the escape velocity from 21000 K on, 1.4 times strictly
    between 10000 K and 21000 K, and the escape velocity itself up to
    10000 K.  Where the escape velocity is defined (a non-negative
    radicand) the terminal velocity is therefore never below it. *)
Theorem kudritzki_wind_velocity_bands
        (G mass radius luminosity temperature Y I_He : R) :
  0 <= escape_squared G mass radius luminosity Y I_He ->
  let v_esc := sqrt (escape_squared G mass radius luminosity Y I_He) in
  let v := kudritzki_wind_velocity G mass radius luminosity temperature
                                   Y I_He in
  (21000 <= temperature -> v = v_esc * 2.65)
  /\ (10000 < temperature < 21000 -> v = v_esc * 1.4)
  /\ (temperature <= 10000 -> v = v_esc)
  /\ v_esc <= v.
Proof.
  intros _ v_esc v.
  assert (Hv : 0 <= v_esc) by apply sqrt_pos.
  unfold v, kudritzki_wind_velocity. cbv zeta.
  fold (escape_squared G mass radius luminosity Y I_He). fold v_esc.
  unfold select, Rgeb, Rltb, Rleb.
  destruct (Rle_dec 21000 temperature), (Rlt_dec 10000 temperature),
    (Rlt_dec temperature 21000), (Rle_dec temperature 10000);
    cbn [andb]; repeat split; intros; try Lra.lra.
Qed.

Lemma kudritzki_wind_velocity_bands_witness :
  0 <= escape_squared 1 1 1 0 0.25 2
  /\ kudritzki_wind_velocity 1 1 1 0 30000 0.25 2
     = sqrt (escape_squared 1 1 1 0 0.25 2) * 2.65.
Proof.
  assert (H : 0 <= escape_squared 1 1 1 0 0.25 2)
    by (unfold escape_squared; Lra.lra).
  split; [exact H|].
  destruct (kudritzki_wind_velocity_bands 1 1 1 0 30000 0.25 2 H)
    as (Hhot & _).
  apply Hhot. Lra.lra.
Defined.

End AccelFacts.

(** ** The ledger and the simple wind on doubles *)

Module Wind64Facts.

Import Py Floats Wind64.
Local Open Scope float_scope.
Set Warnings "-inexact-float".

(** *** Emission *)





(** All of a wind but its stars and its random state. *)
Definition same_settings (w w' : SimpleWind) : Prop :=
  sph_particle_mass w' = sph_particle_mass w
  /\ model_time w' = model_time w
  /\ target_gas w' = target_gas w
  /\ timestep w' = timestep w
  /\ tag_gas_source w' = tag_gas_source w
  /\ timestamp (particles w') = timestamp (particles w)
  /\ previous_time (particles w') = previous_time (particles w)
  /\ track_mechanical_energy (particles w')
     = track_mechanical_energy (particles w)
  /\ new_unset_lmech_particles (particles w')
     = new_unset_lmech_particles (particles w).

Section Numpy.

Variable wind_sphere : nat -> float -> star -> Z -> result unit * nat.
Variable sum : list float -> float.



Lemma create_wind_particles_settings (w : SimpleWind) :
  same_settings w (snd (create_wind_particles wind_sphere w)).
Proof.
  unfold create_wind_particles.
  destruct (emit_stars wind_sphere w (random_state w)
                       (stars (particles w))) as [[r st] rs].
  simpl. repeat split.
Qed.

End Numpy.


(** A wind of one star that loses 0.59 (or 0.7) of mass a year, after one
    year, for particles of mass 0.01: the ledger holds 0.59 (or 0.7). *)
Definition one_star (rate : float) : SimpleWind :=
  mk_wind 0.01 1
          (mk_stars [mk_star 0 rate rate 30 0 0 (-1)] 1 1 false false)
          None None false 0.

(** A [wind_sphere] that always returns, and draws nothing. *)
Definition sphere_returns : nat -> float -> star -> Z -> result unit * nat :=
  fun rs _ _ _ => (Ok tt, rs).

(** The ledger of [one_star 0.59] comes from advancing a new star by one
    year. *)
Remark one_star_advanced :
  evolve_mass_loss 1 (mk_stars [mk_star 0 0 0.59 30 0 0 (-1)] 0 0
                               false false)
  = Ok (particles (one_star 0.59)).
Proof. reflexivity. Qed.





(** *** The initial wind *)





Lemma add_to_target_particles (wind : list gas) (w : SimpleWind) :
  particles (add_to_target wind w) = particles w
  /\ model_time (add_to_target wind w) = model_time w
  /\ timestep (add_to_target wind w) = timestep w
  /\ has_target (add_to_target wind w) = has_target w.
Proof.
  unfold add_to_target, has_target.
  destruct (target_gas w) eqn:E; simpl; rewrite ?E; now repeat split.
Qed.









(** *** The clock *)

(** The clock after [n] rounds of the loop of [evolve_model]: the time
    step added [n] times, each sum rounded. *)
Fixpoint clock (n : nat) (t dt : float) : float :=
  match n with
  | O => t
  | S n' => clock n' (t + dt) dt
  end.

Lemma evolve_particles_settings (w : SimpleWind) :
  model_time (snd (evolve_particles w)) = model_time w
  /\ timestep (snd (evolve_particles w)) = timestep w
  /\ target_gas (snd (evolve_particles w)) = target_gas w.
Proof.
  unfold evolve_particles.
  destruct (evolve_mass_loss (model_time w) (particles w));
    now repeat split.
Qed.

(** A round of the loop adds the time step to the clock when it returns
    and leaves the clock alone when it raises; it never changes the time
    step nor removes the target. *)
Lemma evolve_model_step_clock
      (wind_sphere : nat -> float -> star -> Z -> result unit * nat)
      (w : SimpleWind) (dt : float) :
  timestep w = Some dt ->
  match evolve_model_step wind_sphere w with
  | (Ok _, w') =>
      model_time w' = model_time w + dt
      /\ timestep w' = Some dt /\ has_target w' = has_target w
  | (Raise _, w') => model_time w' = model_time w
  end.
Proof.
  intro Hdt. unfold evolve_model_step.
  destruct (evolve_particles_settings w) as (Ht & Hs & Hg).
  destruct (evolve_particles w) as [[u|e] w1]; simpl in Ht, Hs, Hg;
    [|exact Ht].
  destruct (has_new_wind_particles w1) as [b|e]; [|exact Ht].
  destruct b.
  - destruct (create_wind_particles_settings wind_sphere w1)
      as (_ & Ht2 & Hg2 & Hs2 & _).
    destruct (create_wind_particles wind_sphere w1) as [[wind|e] w2];
      simpl in Ht2, Hg2, Hs2; [|congruence].
    destruct (add_to_target_particles wind w2) as (_ & Ht3 & Hs3 & Hg3).
    assert (Hs4 : timestep (add_to_target wind w2) = Some dt)
      by congruence.
    unfold has_target in *. rewrite Hs4. simpl.
    split; [congruence|]. split; [exact Hs4|].
    rewrite Hg3. now rewrite Hg2, Hg.
  - assert (Hs4 : timestep w1 = Some dt) by congruence.
    rewrite Hs4. simpl.
    split; [congruence|]. split; [exact Hs4|].
    unfold has_target. simpl. now rewrite Hg.
Qed.

Section Rounds.

Variable wind_sphere : nat -> float -> star -> Z -> result unit * nat.
Variables time dt : float.

Lemma evolve_model_loop_rounds (n : nat) :
  forall w,
    timestep w = Some dt ->
    (forall k, (k < n)%nat -> leb (clock k (model_time w) dt) time = true) ->
    leb (clock n (model_time w) dt) time = false ->
    forall fuel, (n < fuel)%nat ->
      exists r w',
        evolve_model_loop wind_sphere fuel time w = Some (r, w')
        /\ ((r = Ok tt /\ loop_runs wind_sphere time n w w'
             /\ model_time w' = clock n (model_time w) dt)
            \/ exists e k, r = Raise e /\ (k < n)%nat
                           /\ model_time w' = clock k (model_time w) dt).
Proof.
  induction n as [|n IH]; intros w Hdt Hbefore Hpast fuel Hfuel;
    (destruct fuel as [|fuel]; [lia|]); simpl evolve_model_loop.
  - simpl in Hpast. rewrite Hpast.
    exists (Ok tt), w. split; [reflexivity|]. left.
    split; [reflexivity|]. split; [now constructor | reflexivity].
  - assert (H0 : leb (model_time w) time = true)
      by (apply (Hbefore O); lia).
    rewrite H0.
    pose proof (evolve_model_step_clock wind_sphere w dt Hdt) as Hstep.
    destruct (evolve_model_step wind_sphere w) as [[u|e] w1] eqn:E.
    + destruct Hstep as (Ht & Hs & _). destruct u.
      destruct (IH w1 Hs) with (fuel := fuel) as (r & w' & Hrun & Hend).
      * intros k Hk. rewrite Ht. apply (Hbefore (S k)). lia.
      * rewrite Ht. exact Hpast.
      * lia.
      * exists r, w'. split; [exact Hrun|].
        destruct Hend as [(-> & Hruns & Hclock) | (e & k & -> & Hk & Hclock)].
        -- left. split; [reflexivity|]. split.
           ++ apply loop_round with (w1 := w1);
                [exact H0 | exact E | exact Hruns].
           ++ rewrite Hclock, Ht. reflexivity.
        -- right. exists e, (S k). split; [reflexivity|].
           split; [lia|]. rewrite Hclock, Ht. reflexivity.
    + exists (Raise e), w1. split; [reflexivity|]. right.
      exists e, O. split; [reflexivity|]. split; [lia | exact Hstep].
Qed.

Lemma evolve_model_loop_never_leaves (fuel : nat) :
  forall w,
    timestep w = Some dt ->
    (forall k, leb (clock k (model_time w) dt) time = true) ->
    match evolve_model_loop wind_sphere fuel time w with
    | Some (Ok _, _) => False
    | _ => True
    end.
Proof.
  induction fuel as [|fuel IH]; intros w Hdt Hall; simpl; [exact I|].
  assert (H0 : leb (model_time w) time = true) by apply (Hall O).
  rewrite H0.
  pose proof (evolve_model_step_clock wind_sphere w dt Hdt) as Hstep.
  destruct (evolve_model_step wind_sphere w) as [[u|e] w1]; [|exact I].
  destruct Hstep as (Ht & Hs & _).
  apply IH; [exact Hs|].
  intro k. rewrite Ht. apply (Hall (S k)).
Qed.

End Rounds.

(** A wind of one star that loses [rate] a year, with a target for the
    gas, at time [t] and with time step [dt], for particles of mass 1. *)
Definition running (t dt rate : float) : SimpleWind :=
  mk_wind 1 t
          (mk_stars [mk_star 0 0 rate 30 0 0 (-1)] 0 0 false false)
          (Some []) (Some dt) false 0.

(** The state the first round leaves from [running 1e16 1 1e-17], in which
    every further round ends as well. *)
Definition stuck : SimpleWind :=
  mk_wind 1 1e16
          (mk_stars [mk_star 0 0.1 1e-17 30 0 0 (-1)] 1e16 1e16 false false)
          (Some []) (Some 1) false 0.

Lemma running_gets_stuck :
  evolve_model_step sphere_returns (running 1e16 1 1e-17) = (Ok tt, stuck).
Proof. vm_compute. reflexivity. Qed.

Lemma stuck_stays :
  evolve_model_step sphere_returns stuck = (Ok tt, stuck).
Proof. vm_compute. reflexivity. Qed.

Lemma stuck_forever (fuel : nat) :
  evolve_model_loop sphere_returns fuel 2e16 stuck = None.
Proof.
  induction fuel as [|fuel IH]; [reflexivity|].
  cbn [evolve_model_loop].
  change (leb (model_time stuck) 2e16) with true. cbv iota.
  rewrite stuck_stays. exact IH.
Qed.

(** C8, counterexample.  With a positive time step the loop need not end,
    and when it ends it can make more rounds than
    [(target_time - model_time) / timestep + 1].  At model time 1e16 a
    time step of 1 is absorbed by the rounding of the sum, so the clock
    stands still and the loop toward 2e16 is never left.  From 0 toward
    0.6 in steps of 0.1 the clock reads 0, 0.1, 0.2, 0.30000000000000004,
    0.4, 0.5 and 0.6 before it passes the target: seven rounds, where the
    bound is below 7 both for the quotient of the doubles and as the
    program would compute it (6.999999999999999). *)
Lemma evolve_model_stands_still_or_runs_longer :
  (has_target (running 1e16 1 1e-17) = true
   /\ timestep (running 1e16 1 1e-17) = Some 1
   /\ ltb 0 1 = true
   /\ forall fuel,
       evolve_model sphere_returns fuel 2e16 (running 1e16 1 1e-17) = None)
  /\ (has_target (running 0 0.1 0) = true
      /\ timestep (running 0 0.1 0) = Some 0.1
      /\ (exists w', loop_runs sphere_returns 0.6 7 (running 0 0.1 0) w')
      /\ ltb ((0.6 - model_time (running 0 0.1 0)) / 0.1 + 1) 7 = true
      /\ ((F64.exact 0.6 - F64.exact (model_time (running 0 0.1 0)))
          / F64.exact 0.1 + 1 < 7)%Q).
Proof.
  split.
  - split; [reflexivity|]. split; [reflexivity|]. split; [reflexivity|].
    intros [|fuel]; [reflexivity|].
    unfold evolve_model.
    change (has_target (running 1e16 1 1e-17)) with true. cbv iota.
    cbn [evolve_model_loop].
    change (leb (model_time (running 1e16 1 1e-17)) 2e16) with true.
    cbv iota. rewrite running_gets_stuck. apply stuck_forever.
  - split; [reflexivity|]. split; [reflexivity|]. split.
    + eexists.
      do 7 (eapply loop_round;
            [reflexivity | vm_compute; reflexivity |]).
      apply loop_exit. reflexivity.
    + split; [reflexivity|]. vm_compute. reflexivity.
Qed.

(** C8.  When a target gas collection and a time step are configured,
    [evolve_model(time)] runs its loop for exactly as many rounds as it
    takes the clock, to which the time step is added with rounding once a
    round, to pass [time]: if the clock reads at most [time] before each
    of the first [n] rounds and not so after them, the call ends within
    [n] rounds whatever the fuel beyond [n] - either it returns after
    exactly [n] rounds with the clock at the first value past [time],
    which can overshoot [time] by up to a time step, or a round among
    them raised and the clock stands where that round found it.  If the
    clock never passes [time], the call never returns. *)
Theorem evolve_model_ends_when_the_clock_passes
        (wind_sphere : nat -> float -> star -> Z -> result unit * nat)
        (time dt : float) (w : SimpleWind) :
  has_target w = true ->
  timestep w = Some dt ->
  (forall n,
      (forall k, (k < n)%nat ->
                 leb (clock k (model_time w) dt) time = true) ->
      leb (clock n (model_time w) dt) time = false ->
      forall fuel, (n < fuel)%nat ->
        exists r w',
          evolve_model wind_sphere fuel time w = Some (r, w')
          /\ ((r = Ok tt /\ loop_runs wind_sphere time n w w'
               /\ model_time w' = clock n (model_time w) dt)
              \/ exists e k, r = Raise e /\ (k < n)%nat
                             /\ model_time w' = clock k (model_time w) dt))
  /\ ((forall k, leb (clock k (model_time w) dt) time = true) ->
      forall fuel,
        match evolve_model wind_sphere fuel time w with
        | Some (Ok _, _) => False
        | _ => True
        end).
Proof.
  intros Htarget Hdt. unfold evolve_model. rewrite Htarget. split.
  - intros n. now apply evolve_model_loop_rounds.
  - intros Hall fuel. now apply evolve_model_loop_never_leaves with (dt := dt).
Qed.

Lemma evolve_model_ends_when_the_clock_passes_witness :
  has_target (running 0 0.1 0) = true
  /\ timestep (running 0 0.1 0) = Some 0.1
  /\ (forall k, (k < 7)%nat ->
                leb (clock k (model_time (running 0 0.1 0)) 0.1) 0.6 = true)
  /\ leb (clock 7 (model_time (running 0 0.1 0)) 0.1) 0.6 = false
  /\ exists r w',
      evolve_model sphere_returns 8 0.6 (running 0 0.1 0) = Some (r, w').
Proof.
  assert (H1 : has_target (running 0 0.1 0) = true) by reflexivity.
  assert (H2 : timestep (running 0 0.1 0) = Some 0.1) by reflexivity.
  assert (H3 : forall k, (k < 7)%nat ->
                         leb (clock k (model_time (running 0 0.1 0)) 0.1)
                             0.6 = true).
  { intros k Hk. do 7 (destruct k as [|k]; [reflexivity|]). lia. }
  assert (H4 : leb (clock 7 (model_time (running 0 0.1 0)) 0.1) 0.6
               = false) by reflexivity.
  split; [exact H1|]. split; [exact H2|]. split; [exact H3|].
  split; [exact H4|].
  destruct (proj1 (evolve_model_ends_when_the_clock_passes
                     sphere_returns 0.6 0.1 (running 0 0.1 0) H1 H2)
                  7%nat H3 H4 8%nat (le_n 8))
    as (r & w' & Hrun & _).
  exists r, w'. exact Hrun.
Defined.

End Wind64Facts.

(** ** The shell sampler on doubles *)

Module Sampler64Facts.

Import Py Floats Sampler64.
Local Open Scope float_scope.
Set Warnings "-inexact-float".

(** The square of the Euclidean norm of a row of finite doubles. *)
Definition norm2 (p : point) : Q :=
  let '(x, y, z) := p in
  (F64.exact x * F64.exact x + F64.exact y * F64.exact y
   + F64.exact z * F64.exact z)%Q.



(** *** Counting the rows that survive the cut-out *)







(** *** The oversampling loop *)

(** The generator built for [grid_type="random"]. *)
Definition random_generator : PositionGenerator := mk_generator random_cube.







(** *** Examples *)

(** A power function for the examples: the third power by two products,
    which is exact on 0.5. *)
Definition third_power (x y : float) : float := x * x * x.






(** A stream whose every third row lies in the shell from 0.5 on: the row
    (0.75, 0.75, 0.75), of computed length above 1, twice and then the row
    (0.5, 0.5, 0.5). *)
Definition thirds : stream :=
  fun i => if (i mod 9 <? 6)%nat then 0.75 else 0.5.


(** Two points are asked for in the shell from radius 0.5 on.  The
    estimate [2 / cube_sphere_ratio], about 4.4, grows to about 5.8: the
    five rows of the first round hold one row of the shell.  It grows on
    to about 7.4: the seven rows of the second round hold three, of which
    the first two are returned, after 36 numbers have been drawn. *)
Example sampler_on_thirds :
  uniform_hollow_sphere third_power 1 random_generator thirds 2 0.5 0 = None
  /\ uniform_hollow_sphere third_power 2 random_generator thirds 2 0.5 0
     = Some (Ok ([(0.5, 0.5, 0.5); (0.5, 0.5, 0.5)], 36%nat)).
Proof. split; vm_compute; reflexivity. Qed.


End Sampler64Facts.

(** ** Facts of binary64 arithmetic *)

Module F64Facts.

Import Py Floats.
Local Open Scope float_scope.





End F64Facts.

(** ** The acceleration laws on doubles *)

Module Laws64Facts.

Import Py Floats Laws64.
Local Open Scope float_scope.
Set Warnings "-inexact-float".


(** A star of radius 1 whose wind accelerates from 0.2 to 2 between the
    surface and five radii (from two radii on for the delayed law). *)
Definition sun : star := mk_star 1 5 2 0.2 2.



Section Libm.

Variable pow : float -> float -> float.
Variable exp : float -> float.


End Libm.




(** C4.  [radius_from_number] of the velocity law raises for every
    quantile, every outer radius and every star, with or without SciPy:
    [VelocityLawAcceleration.__init__] sets [alpha] and does not call the
    constructor of [AccelerationFunction], so that the inherited method
    finds no [self.quad].  The logistic law, whose constructor does call
    it, runs the method with the backend and returns what [brentq]
    returns. *)
Theorem radius_from_number_velocity_law_raises
        (pow : float -> float -> float) (exp : float -> float)
        (scipy_imports : option backend) (x r_max : float) (s : star) :
  (forall alpha,
      init scipy_imports (VelocityLawAcceleration alpha) = not_set
      /\ radius_from_number pow exp scipy_imports
                            (VelocityLawAcceleration alpha) x r_max s
         = Raise AttributeError)
  /\ (forall b steepness r_mid,
         init (Some b) (LogisticVelocityAcceleration steepness r_mid)
         = scipy b
         /\ exists residual,
             radius_from_number pow exp (Some b)
                                (LogisticVelocityAcceleration
                                   steepness r_mid)
                                x r_max s
             = brentq b residual (radius s) r_max).
Proof.
  split.
  - intro alpha. split; reflexivity.
  - intros b steepness r_mid. split; [reflexivity|].
    eexists. reflexivity.
Qed.

End Laws64Facts.
